(** * OSML CDK constructs: DCDataplane, TSLambdaRole and OSMLSMEndpoint

    A shallow embedding of three constructs of osml-cdk-constructs:

    - [DC]: lib/osml/data_catalog/dc_dataplane.ts, the classes
      [DCDataplaneConfig] and [DCDataplane] (constructor and [setup]);
    - [TS]: lib/osml/tile_server/roles/ts_lambda_role.ts, the class
      [TSLambdaRole].

    - [SM]: lib/osml/osml_sm_endpoint.ts, the class [OSMLSMEndpoint].

    The properties proved of them are in [DCProofs], [TSProofs], [DCExtra],
    [TSExtra] and [SMExtra].

    A construct's constructor is a sequence of side effects on two pieces of
    state: the fields of [this], and the children declared in the scope of
    [this].  Both are threaded through a state-and-error monad; an error stands
    for a JavaScript exception escaping the constructor. *)

From Stdlib Require Import Ascii String List ZArith.
Import ListNotations.
Local Open Scope string_scope.

(** ** The composition monad *)

Module Compose.

(** Exceptions a composition pass can raise in this model. *)
Inductive Error : Type :=
| DuplicateConstruct (id : string)   (* constructs: a second child with the same id *)
| NoSuchConstruct (id : string)      (* a reference to a child that was never declared *)
| UndefinedField (name : string).    (* TypeError: member access on a field still undefined *)

Definition M (S A : Type) : Type := S -> Error + (A * S).

Definition ret {S A} (a : A) : M S A := fun s => inr (a, s).

Definition bind {S A B} (c : M S A) (k : A -> M S B) : M S B :=
  fun s => match c s with
           | inl e => inl e
           | inr (a, s') => k a s'
           end.

Definition throw {S A} (e : Error) : M S A := fun _ => inl e.

Definition get {S} : M S S := fun s => inr (s, s).

Definition modify {S} (f : S -> S) : M S unit := fun s => inr (tt, f s).

(** [o] is a value that may be [undefined]; member access on it throws. *)
Definition defined {S A} (name : string) (o : option A) : M S A :=
  match o with
  | Some a => ret a
  | None => throw (UndefinedField name)
  end.

(** The pass returns, and what it returns satisfies [post]. *)
Definition returns {A : Type} (r : Error + A) (post : A -> Prop) : Prop :=
  match r with
  | inr a => post a
  | inl _ => False
  end.

Declare Scope compose_scope.
Delimit Scope compose_scope with compose.

Notation "x <- c ;; k" := (bind c (fun x => k))
  (at level 61, c at next level, right associativity) : compose_scope.
Notation "c ;;; k" := (bind c (fun _ => k))
  (at level 61, right associativity) : compose_scope.

End Compose.

(** ** The part of aws-cdk-lib the two constructs use

    Library objects are records of the properties they were given.  The
    validation aws-cdk-lib performs inside its own constructors is not part of
    this repository and is not modelled: a declaration records its properties
    as given. *)

Module Cdk.

(** A reference to an object.  [Foreign h] is an object owned by the caller
    (a handle passed in through the properties); [Child id] is the construct
    declared under [this] with that id; [Member r f] is the public field [f]
    of the object [r]. *)
Inductive Ref : Type :=
| Foreign (h : string)
| Child (id : string)
| Member (r : Ref) (field : string).

Definition IRole := Ref.
Definition ITopic := Ref.
Definition ISecurityGroup := Ref.
Definition IVpc := Ref.
Definition IFunction := Ref.
Definition DockerImageCode := Ref.

(** A string of the template: a literal, a deploy-time attribute of a
    resource, or a concatenation. *)
Inductive CfnValue : Type :=
| Str (s : string)
| Attr (r : Ref) (name : string)
| Cat (a b : CfnValue).

Inductive RemovalPolicy : Type :=
| DESTROY | RETAIN | SNAPSHOT | RETAIN_ON_UPDATE_OR_DELETE.

Inductive Effect : Type := ALLOW | DENY.

#[warnings="-register-all"]
Inductive Principal : Type :=
| AnyPrincipal
| ServicePrincipal (service : string)
| CompositePrincipal (ps : list Principal).

Record PolicyStatement : Type := {
  effect : Effect;
  principals : list Principal;
  actions : list string;
  resources : list CfnValue
}.

(** [new PolicyStatement({...})]: an omitted [effect] is ALLOW, omitted
    [principals] is the empty list. *)
Definition new_PolicyStatement (e : option Effect) (ps : list Principal)
    (acts : list string) (res : list CfnValue) : PolicyStatement :=
  {| effect := match e with Some x => x | None => ALLOW end;
     principals := ps; actions := acts; resources := res |}.

Inductive EngineVersion : Type := OPENSEARCH_2_11.
Inductive LoggingFormat : Type := TEXT | JSON.
Inductive Duration : Type := seconds (n : Z).
Inductive Size : Type := gibibytes (n : Z).
Inductive Port : Type := tcp (p : Z).

(** JavaScript truthiness: of a string (every string but the empty one), and
    of a boolean that may be [undefined]. *)
Definition truthy_string (s : string) : bool := negb (s =? "").

Definition truthy_flag (o : option bool) : bool :=
  match o with
  | Some b => b
  | None => false
  end.

(** A parameter with a default value: the default is taken when the argument
    is omitted or [undefined]. *)
Definition param {A : Type} (arg : option A) (default : A) : A :=
  match arg with
  | Some a => a
  | None => default
  end.

(** Interpolation [${v}] of a value that may be [undefined]. *)
Definition interpolate (o : option string) : string :=
  match o with
  | Some s => s
  | None => "undefined"
  end.

End Cdk.

(** ** Types of this repository declared outside the embedded files *)

Module Osml.

(** Modelled from the spec: the interface [OSMLAccount] of osml_account.ts,
    which is not among the sources.  It carries the account id, the region,
    the production flag and the flag asking for authenticated external
    access; the latter is read through its truthiness only, so an absent flag
    is [None]. *)
Record OSMLAccount : Type := {
  id : string;
  region : string;
  prodLike : bool;
  auth : option bool
}.

(** Modelled from the spec: the result of a subnet selection, of which the
    dataplane reads [subnetIds] only. *)
Record SelectedSubnets : Type := {
  subnetIds : list string
}.

(** Modelled from the spec: the construct [OSMLVpc] of osml_vpc.ts, of which
    the dataplane reads the fields [vpc] and [selectedSubnets]. *)
Record OSMLVpc : Type := {
  vpc : Cdk.IVpc;
  selectedSubnets : SelectedSubnets
}.

End Osml.

(** ** dc_dataplane.ts *)

Module DC.

Import Compose Cdk Osml.
Local Open Scope compose_scope.

(** *** DCDataplaneConfig

    The class is its constructor: nineteen public parameter properties, each
    with a default.  The values of type [number] are only carried, never
    computed with, and the defaults are integers: they are modelled in [Z]. *)

Record DCDataplaneConfig : Type := {
  LAMBDA_ROLE_NAME : string;
  LAMBDA_MEMORY_SIZE : Z;
  LAMBDA_STORAGE_SIZE : Z;
  LAMBDA_TIMEOUT : Z;
  OS_DATA_NODES : Z;
  OS_EBS_SIZE : Z;
  STAC_FASTAPI_BACKEND : string;
  STAC_FASTAPI_TITLE : string;
  STAC_FASTAPI_DESCRIPTION : string;
  STAC_FASTAPI_VERSION : string;
  STAC_FASTAPI_ROOT_PATH : string;
  RELOAD : string;
  ENVIRONMENT : string;
  WEB_CONCURRENCY : string;
  ES_PORT : string;
  ES_USE_SSL : string;
  ES_VERIFY_CERTS : string;
  SERVICE_NAME_ABBREVIATION : string;
  SNS_INGEST_TOPIC_NAME : string
}.

(** The arguments of a call [new DCDataplaneConfig(...)], by position; [None]
    is an argument that is omitted or passed as [undefined]. *)
Record DCDataplaneConfigArgs : Type := {
  arg_LAMBDA_ROLE_NAME : option string;
  arg_LAMBDA_MEMORY_SIZE : option Z;
  arg_LAMBDA_STORAGE_SIZE : option Z;
  arg_LAMBDA_TIMEOUT : option Z;
  arg_OS_DATA_NODES : option Z;
  arg_OS_EBS_SIZE : option Z;
  arg_STAC_FASTAPI_BACKEND : option string;
  arg_STAC_FASTAPI_TITLE : option string;
  arg_STAC_FASTAPI_DESCRIPTION : option string;
  arg_STAC_FASTAPI_VERSION : option string;
  arg_STAC_FASTAPI_ROOT_PATH : option string;
  arg_RELOAD : option string;
  arg_ENVIRONMENT : option string;
  arg_WEB_CONCURRENCY : option string;
  arg_ES_PORT : option string;
  arg_ES_USE_SSL : option string;
  arg_ES_VERIFY_CERTS : option string;
  arg_SERVICE_NAME_ABBREVIATION : option string;
  arg_SNS_INGEST_TOPIC_NAME : option string
}.

Definition new_DCDataplaneConfig (a : DCDataplaneConfigArgs) : DCDataplaneConfig := {|
  LAMBDA_ROLE_NAME := param (arg_LAMBDA_ROLE_NAME a) "DCLambdaRole";
  LAMBDA_MEMORY_SIZE := param (arg_LAMBDA_MEMORY_SIZE a) 4096%Z;
  LAMBDA_STORAGE_SIZE := param (arg_LAMBDA_STORAGE_SIZE a) 10%Z;
  LAMBDA_TIMEOUT := param (arg_LAMBDA_TIMEOUT a) 300%Z;
  OS_DATA_NODES := param (arg_OS_DATA_NODES a) 4%Z;
  OS_EBS_SIZE := param (arg_OS_EBS_SIZE a) 10%Z;
  STAC_FASTAPI_BACKEND := param (arg_STAC_FASTAPI_BACKEND a) "opensearch";
  STAC_FASTAPI_TITLE := param (arg_STAC_FASTAPI_TITLE a) "stac-fastapi-opensearch";
  STAC_FASTAPI_DESCRIPTION :=
    param (arg_STAC_FASTAPI_DESCRIPTION a) "A STAC FastAPI with an OpenSearch backend";
  STAC_FASTAPI_VERSION := param (arg_STAC_FASTAPI_VERSION a) "2.4.1";
  STAC_FASTAPI_ROOT_PATH := param (arg_STAC_FASTAPI_ROOT_PATH a) "data-catalog";
  RELOAD := param (arg_RELOAD a) "true";
  ENVIRONMENT := param (arg_ENVIRONMENT a) "local";
  WEB_CONCURRENCY := param (arg_WEB_CONCURRENCY a) "10";
  ES_PORT := param (arg_ES_PORT a) "443";
  ES_USE_SSL := param (arg_ES_USE_SSL a) "true";
  ES_VERIFY_CERTS := param (arg_ES_VERIFY_CERTS a) "true";
  SERVICE_NAME_ABBREVIATION := param (arg_SERVICE_NAME_ABBREVIATION a) "DC";
  SNS_INGEST_TOPIC_NAME := param (arg_SNS_INGEST_TOPIC_NAME a) "osml-stac-ingest"
|}.

(** [new DCDataplaneConfig()] *)
Definition no_args : DCDataplaneConfigArgs :=
  Build_DCDataplaneConfigArgs None None None None None None None None None None
                              None None None None None None None None None.

(** A call that passes all nineteen arguments. *)
Definition all_args (c : DCDataplaneConfig) : DCDataplaneConfigArgs := {|
  arg_LAMBDA_ROLE_NAME := Some (LAMBDA_ROLE_NAME c);
  arg_LAMBDA_MEMORY_SIZE := Some (LAMBDA_MEMORY_SIZE c);
  arg_LAMBDA_STORAGE_SIZE := Some (LAMBDA_STORAGE_SIZE c);
  arg_LAMBDA_TIMEOUT := Some (LAMBDA_TIMEOUT c);
  arg_OS_DATA_NODES := Some (OS_DATA_NODES c);
  arg_OS_EBS_SIZE := Some (OS_EBS_SIZE c);
  arg_STAC_FASTAPI_BACKEND := Some (STAC_FASTAPI_BACKEND c);
  arg_STAC_FASTAPI_TITLE := Some (STAC_FASTAPI_TITLE c);
  arg_STAC_FASTAPI_DESCRIPTION := Some (STAC_FASTAPI_DESCRIPTION c);
  arg_STAC_FASTAPI_VERSION := Some (STAC_FASTAPI_VERSION c);
  arg_STAC_FASTAPI_ROOT_PATH := Some (STAC_FASTAPI_ROOT_PATH c);
  arg_RELOAD := Some (RELOAD c);
  arg_ENVIRONMENT := Some (ENVIRONMENT c);
  arg_WEB_CONCURRENCY := Some (WEB_CONCURRENCY c);
  arg_ES_PORT := Some (ES_PORT c);
  arg_ES_USE_SSL := Some (ES_USE_SSL c);
  arg_ES_VERIFY_CERTS := Some (ES_VERIFY_CERTS c);
  arg_SERVICE_NAME_ABBREVIATION := Some (SERVICE_NAME_ABBREVIATION c);
  arg_SNS_INGEST_TOPIC_NAME := Some (SNS_INGEST_TOPIC_NAME c)
|}.

(** The value every field is expected to hold when no argument is given. *)
Definition documented_defaults : DCDataplaneConfig := {|
  LAMBDA_ROLE_NAME := "DCLambdaRole";
  LAMBDA_MEMORY_SIZE := 4096%Z;
  LAMBDA_STORAGE_SIZE := 10%Z;
  LAMBDA_TIMEOUT := 300%Z;
  OS_DATA_NODES := 4%Z;
  OS_EBS_SIZE := 10%Z;
  STAC_FASTAPI_BACKEND := "opensearch";
  STAC_FASTAPI_TITLE := "stac-fastapi-opensearch";
  STAC_FASTAPI_DESCRIPTION := "A STAC FastAPI with an OpenSearch backend";
  STAC_FASTAPI_VERSION := "2.4.1";
  STAC_FASTAPI_ROOT_PATH := "data-catalog";
  RELOAD := "true";
  ENVIRONMENT := "local";
  WEB_CONCURRENCY := "10";
  ES_PORT := "443";
  ES_USE_SSL := "true";
  ES_VERIFY_CERTS := "true";
  SERVICE_NAME_ABBREVIATION := "DC";
  SNS_INGEST_TOPIC_NAME := "osml-stac-ingest"
|}.

(** *** DCDataplaneProps *)

Module Props.
Record t : Type := {
  account : OSMLAccount;
  osmlVpc : OSMLVpc;
  stacCode : DockerImageCode;
  ingestCode : DockerImageCode;
  ingestTopic : option ITopic;
  securityGroupId : option string;
  lambdaRole : option IRole;
  config : option DCDataplaneConfig
}.

(** The same properties but for one optional field. *)
Definition with_ingestTopic (v : option ITopic) (p : t) : t :=
  Build_t (account p) (osmlVpc p) (stacCode p) (ingestCode p)
          v (securityGroupId p) (lambdaRole p) (config p).
Definition with_securityGroupId (v : option string) (p : t) : t :=
  Build_t (account p) (osmlVpc p) (stacCode p) (ingestCode p)
          (ingestTopic p) v (lambdaRole p) (config p).
Definition with_lambdaRole (v : option IRole) (p : t) : t :=
  Build_t (account p) (osmlVpc p) (stacCode p) (ingestCode p)
          (ingestTopic p) (securityGroupId p) v (config p).
Definition with_config (v : option DCDataplaneConfig) (p : t) : t :=
  Build_t (account p) (osmlVpc p) (stacCode p) (ingestCode p)
          (ingestTopic p) (securityGroupId p) (lambdaRole p) v.
End Props.
Definition DCDataplaneProps : Type := Props.t.

(** *** The resources declared in the scope of a dataplane *)

Module Domain.
Record t : Type := {
  version : EngineVersion;
  nodeToNodeEncryption : bool;
  enforceHttps : bool;
  encryptionAtRest_enabled : bool;
  vpc : IVpc;
  capacity_dataNodes : Z;
  vpcSubnets : list SelectedSubnets;
  removalPolicy : RemovalPolicy;
  zoneAwareness_enabled : bool;
  zoneAwareness_availabilityZoneCount : Z;
  securityGroups : list ISecurityGroup;
  (* filled after construction, by addAccessPolicies and connections.allowFrom *)
  accessPolicies : list PolicyStatement;
  allowedFrom : list (Ref * Port)
}.

Definition addAccessPolicies (st : PolicyStatement) (d : t) : t :=
  {| version := version d; nodeToNodeEncryption := nodeToNodeEncryption d;
     enforceHttps := enforceHttps d;
     encryptionAtRest_enabled := encryptionAtRest_enabled d;
     vpc := vpc d; capacity_dataNodes := capacity_dataNodes d;
     vpcSubnets := vpcSubnets d; removalPolicy := removalPolicy d;
     zoneAwareness_enabled := zoneAwareness_enabled d;
     zoneAwareness_availabilityZoneCount := zoneAwareness_availabilityZoneCount d;
     securityGroups := securityGroups d;
     accessPolicies := accessPolicies d ++ [st];
     allowedFrom := allowedFrom d |}.

Definition allowFrom (peer : Ref) (p : Port) (d : t) : t :=
  {| version := version d; nodeToNodeEncryption := nodeToNodeEncryption d;
     enforceHttps := enforceHttps d;
     encryptionAtRest_enabled := encryptionAtRest_enabled d;
     vpc := vpc d; capacity_dataNodes := capacity_dataNodes d;
     vpcSubnets := vpcSubnets d; removalPolicy := removalPolicy d;
     zoneAwareness_enabled := zoneAwareness_enabled d;
     zoneAwareness_availabilityZoneCount := zoneAwareness_availabilityZoneCount d;
     securityGroups := securityGroups d;
     accessPolicies := accessPolicies d;
     allowedFrom := allowedFrom d ++ [(peer, p)] |}.
End Domain.

Definition Env : Type := list (string * CfnValue).

(** [env[key]] *)
Fixpoint Env_get (key : string) (e : Env) : option CfnValue :=
  match e with
  | [] => None
  | (k, v) :: rest => if k =? key then Some v else Env_get key rest
  end.

(** The attributes [domainArn] and [domainEndpoint] of a domain, known at
    deployment only. *)
Definition domainArn (domain : Ref) : CfnValue := Attr domain "domainArn".
Definition domainEndpoint (domain : Ref) : CfnValue := Attr domain "domainEndpoint".

Module Fn.
Record t : Type := {
  functionName : string;
  code : DockerImageCode;
  role : option IRole;
  vpc : IVpc;
  timeout : Duration;
  ephemeralStorageSize : Size;
  memorySize : Z;
  environment : Env;
  loggingFormat : LoggingFormat
}.
End Fn.

Module RestApi.
Record t : Type := {
  account : OSMLAccount;
  name : string;
  apiStageName : string;
  integration : IFunction   (* new LambdaIntegration(handler) *)
}.
End RestApi.

Inductive Node : Type :=
| ImportedSecurityGroup (securityGroupId : string)  (* SecurityGroup.fromSecurityGroupId *)
| SecurityGroup (vpc : IVpc)
| Topic (topicName : string)
| DCLambdaRole (account : OSMLAccount) (roleName : string)
| OSDomain (d : Domain.t)
| DockerImageFunction (f : Fn.t)
| OSMLRestApi (r : RestApi.t).

(** What a node adds to the declaration.  An imported security group is a
    reference to a group that exists already, not a new one. *)
Inductive Kind : Type :=
| KImport | KSecurityGroup | KTopic | KRole | KDomain | KFunction | KRestApi.

Definition kind (n : Node) : Kind :=
  match n with
  | ImportedSecurityGroup _ => KImport
  | SecurityGroup _ => KSecurityGroup
  | Topic _ => KTopic
  | DCLambdaRole _ _ => KRole
  | OSDomain _ => KDomain
  | DockerImageFunction _ => KFunction
  | OSMLRestApi _ => KRestApi
  end.

Definition Kind_eqb (a b : Kind) : bool :=
  match a, b with
  | KImport, KImport | KSecurityGroup, KSecurityGroup | KTopic, KTopic
  | KRole, KRole | KDomain, KDomain | KFunction, KFunction
  | KRestApi, KRestApi => true
  | _, _ => false
  end.

(** The children of a construct, in declaration order. *)
Definition Scope : Type := list (string * Node).

Definition of_kind (k : Kind) (sc : Scope) : Scope :=
  filter (fun c => Kind_eqb (kind (snd c)) k) sc.

Definition count (k : Kind) (sc : Scope) : nat := length (of_kind k sc).

Fixpoint tryFindChild (id : string) (sc : Scope) : option Node :=
  match sc with
  | [] => None
  | (i, n) :: rest => if i =? id then Some n else tryFindChild id rest
  end.

Fixpoint replaceChild (id : string) (n : Node) (sc : Scope) : Scope :=
  match sc with
  | [] => []
  | (i, m) :: rest =>
      if i =? id then (i, n) :: rest else (i, m) :: replaceChild id n rest
  end.

(** *** The object under construction

    The public fields of a [DCDataplane]; a field that was never assigned is
    [undefined], here [None]. *)

Module This.
Record t : Type := {
  removalPolicy : option RemovalPolicy;
  config : option DCDataplaneConfig;
  dockerImageCode : option DockerImageCode;
  lambdaRole : option IRole;
  ingestTopic : option ITopic;
  securityGroup : option ISecurityGroup;
  ingestFunction : option IFunction;
  stacFunction : option IFunction
}.

Definition fresh : t := Build_t None None None None None None None None.

Definition set_removalPolicy (v : RemovalPolicy) (o : t) : t :=
  Build_t (Some v) (config o) (dockerImageCode o) (lambdaRole o)
          (ingestTopic o) (securityGroup o) (ingestFunction o) (stacFunction o).
Definition set_config (v : DCDataplaneConfig) (o : t) : t :=
  Build_t (removalPolicy o) (Some v) (dockerImageCode o) (lambdaRole o)
          (ingestTopic o) (securityGroup o) (ingestFunction o) (stacFunction o).
Definition set_lambdaRole (v : IRole) (o : t) : t :=
  Build_t (removalPolicy o) (config o) (dockerImageCode o) (Some v)
          (ingestTopic o) (securityGroup o) (ingestFunction o) (stacFunction o).
Definition set_ingestTopic (v : ITopic) (o : t) : t :=
  Build_t (removalPolicy o) (config o) (dockerImageCode o) (lambdaRole o)
          (Some v) (securityGroup o) (ingestFunction o) (stacFunction o).
Definition set_securityGroup (v : ISecurityGroup) (o : t) : t :=
  Build_t (removalPolicy o) (config o) (dockerImageCode o) (lambdaRole o)
          (ingestTopic o) (Some v) (ingestFunction o) (stacFunction o).
Definition set_ingestFunction (v : IFunction) (o : t) : t :=
  Build_t (removalPolicy o) (config o) (dockerImageCode o) (lambdaRole o)
          (ingestTopic o) (securityGroup o) (Some v) (stacFunction o).
Definition set_stacFunction (v : IFunction) (o : t) : t :=
  Build_t (removalPolicy o) (config o) (dockerImageCode o) (lambdaRole o)
          (ingestTopic o) (securityGroup o) (ingestFunction o) (Some v).
End This.

(** The state of a composition pass: the object, the children declared under
    it so far, and the subscriptions added to topics so far. *)
Record State : Type := {
  this : This.t;
  children : Scope;
  subscriptions : list (ITopic * IFunction)
}.

Definition fresh : State :=
  {| this := This.fresh; children := []; subscriptions := [] |}.

(** [this.f = v] *)
Definition assign (f : This.t -> This.t) : M State unit :=
  modify (fun s => {| this := f (this s); children := children s;
                      subscriptions := subscriptions s |}).

(** [this.f], a plain read: the value or [undefined]. *)
Definition read {A : Type} (f : This.t -> option A) : M State (option A) :=
  s <- get ;; ret (f (this s)).

(** [this.config.X]: throws when [this.config] is still undefined. *)
Definition this_config : M State DCDataplaneConfig :=
  c <- read This.config ;; defined "config" c.

(** [new C(this, id, ...)]: a second child with the same id is refused. *)
Definition declare (id : string) (n : Node) : M State Ref :=
  s <- get ;;
  match tryFindChild id (children s) with
  | Some _ => throw (DuplicateConstruct id)
  | None =>
      modify (fun s => {| this := this s; children := (children s ++ [(id, n)])%list;
                          subscriptions := subscriptions s |}) ;;;
      ret (Child id)
  end.

(** A method of the domain [r] that updates it in place. *)
Definition onDomain (r : Ref) (f : Domain.t -> Domain.t) : M State unit :=
  match r with
  | Child id =>
      s <- get ;;
      match tryFindChild id (children s) with
      | Some (OSDomain d) =>
          modify (fun s => {| this := this s;
                              children := replaceChild id (OSDomain (f d)) (children s);
                              subscriptions := subscriptions s |})
      | _ => throw (NoSuchConstruct id)
      end
  | Foreign h => throw (NoSuchConstruct h)
  | Member _ f => throw (NoSuchConstruct f)
  end.

(** [topic.addSubscription(new LambdaSubscription(fn))] *)
Definition addSubscription (topic : ITopic) (fn : IFunction) : M State unit :=
  modify (fun s => {| this := this s; children := children s;
                      subscriptions := (subscriptions s ++ [(topic, fn)])%list |}).

(** *** DCDataplane.setup *)

Definition setup (props : DCDataplaneProps) : M State unit :=
  (* Check if a custom configuration was provided *)
  match Props.config props with
  | Some c => assign (This.set_config c)
  | None => assign (This.set_config (new_DCDataplaneConfig no_args))
  end ;;;
  (* If a custom security group was provided *)
  match Props.securityGroupId props with
  | Some sgid =>
      if truthy_string sgid then
        sg <- declare "DCImportSecurityGroup" (ImportedSecurityGroup sgid) ;;
        assign (This.set_securityGroup sg)
      else ret tt
  | None => ret tt
  end ;;;
  (* Create an SNS topic for STAC item outputs if needed *)
  match Props.ingestTopic props with
  | Some t => assign (This.set_ingestTopic t)
  | None =>
      cfg <- this_config ;;
      t <- declare "DIOutputTopic" (Topic (SNS_INGEST_TOPIC_NAME cfg)) ;;
      assign (This.set_ingestTopic t)
  end ;;;
  (* Setup a removal policy *)
  assign (This.set_removalPolicy
            (if prodLike (Props.account props) then RETAIN else DESTROY)) ;;;
  (* Create a lambda role if needed *)
  match Props.lambdaRole props with
  | Some r => assign (This.set_lambdaRole r)
  | None =>
      cfg <- this_config ;;
      c <- declare "DCLambdaRole"
             (DCLambdaRole (Props.account props) (LAMBDA_ROLE_NAME cfg)) ;;
      assign (This.set_lambdaRole (Member c "role"))
  end.

(** *** The constructor of DCDataplane

    [Duration.seconds], [Size.gibibytes] and [new Domain] of aws-cdk-lib
    refuse some values (a negative amount, a storage size out of range, a zone
    count other than 2 or 3).  These refusals are the library's and are not
    part of the model, which records the values as given: what is proved of a
    dataplane is proved of the one the constructor builds when the library
    accepts its values. *)

(** The operating environment of the two functions. *)
Definition env (cfg : DCDataplaneConfig) (osDomain : Ref) : Env :=
  [ ("STAC_FASTAPI_TITLE", Str (STAC_FASTAPI_TITLE cfg));
    ("STAC_FASTAPI_DESCRIPTION", Str (STAC_FASTAPI_DESCRIPTION cfg));
    ("STAC_FASTAPI_VERSION", Str (STAC_FASTAPI_VERSION cfg));
    ("RELOAD", Str (RELOAD cfg));
    ("ENVIRONMENT", Str (ENVIRONMENT cfg));
    ("WEB_CONCURRENCY", Str (WEB_CONCURRENCY cfg));
    ("ES_HOST", domainEndpoint osDomain);
    ("ES_PORT", Str (ES_PORT cfg));
    ("ES_USE_SSL", Str (ES_USE_SSL cfg));
    ("ES_VERIFY_CERTS", Str (ES_VERIFY_CERTS cfg));
    ("STAC_FASTAPI_ROOT_PATH", Str ("/" ++ STAC_FASTAPI_ROOT_PATH cfg)) ].

Definition constructor (props : DCDataplaneProps) : M State unit :=
  (* Setup class from base properties *)
  setup props ;;;
  opensearchSecurityGroup <-
    declare "DCOSSecurityGroup" (SecurityGroup (vpc (Props.osmlVpc props))) ;;
  (* Create and opensearch domain for our STAC database *)
  cfg <- this_config ;;
  osDomain <- declare "DCOSDomain" (OSDomain {|
    Domain.version := OPENSEARCH_2_11;
    Domain.nodeToNodeEncryption := true;
    Domain.enforceHttps := true;
    Domain.encryptionAtRest_enabled := true;
    Domain.vpc := vpc (Props.osmlVpc props);
    Domain.capacity_dataNodes := OS_DATA_NODES cfg;
    Domain.vpcSubnets := [selectedSubnets (Props.osmlVpc props)];
    Domain.removalPolicy :=
      if prodLike (Props.account props) then RETAIN else DESTROY;
    Domain.zoneAwareness_enabled := true;
    Domain.zoneAwareness_availabilityZoneCount :=
      Z.of_nat (length (subnetIds (selectedSubnets (Props.osmlVpc props))));
    Domain.securityGroups := [opensearchSecurityGroup];
    Domain.accessPolicies := [];
    Domain.allowedFrom := []
  |}) ;;
  onDomain osDomain
    (Domain.addAccessPolicies
       (new_PolicyStatement None [AnyPrincipal] ["es:ESHttp*"]
          [Cat (domainArn osDomain) (Str "/*")])) ;;;
  (* Create an operating ENV for our lambda container *)
  cfg <- this_config ;;
  let env := env cfg osDomain in
  (* Package op the container function *)
  role <- read This.lambdaRole ;;
  cfg <- this_config ;;
  stac <- declare "DCStacFunction" (DockerImageFunction {|
    Fn.functionName := "DCStacLambda";
    Fn.code := Props.stacCode props;
    Fn.role := role;
    Fn.vpc := vpc (Props.osmlVpc props);
    Fn.timeout := seconds (LAMBDA_TIMEOUT cfg);
    Fn.ephemeralStorageSize := gibibytes (LAMBDA_STORAGE_SIZE cfg);
    Fn.memorySize := LAMBDA_MEMORY_SIZE cfg;
    Fn.environment := env;
    Fn.loggingFormat := JSON
  |}) ;;
  assign (This.set_stacFunction stac) ;;;
  (* Allow the lambda to connect to opensearch *)
  f <- read This.stacFunction ;;
  f <- defined "stacFunction" f ;;
  onDomain osDomain (Domain.allowFrom f (tcp 443)) ;;;
  (if truthy_flag (auth (Props.account props)) then
     cfg <- this_config ;;
     f <- read This.stacFunction ;;
     f <- defined "stacFunction" f ;;
     declare "DCRestApi" (OSMLRestApi {|
       RestApi.account := Props.account props;
       RestApi.name := SERVICE_NAME_ABBREVIATION cfg;
       RestApi.apiStageName := STAC_FASTAPI_ROOT_PATH cfg;
       RestApi.integration := f
     |}) ;;;
     ret tt
   else ret tt) ;;;
  (* Create the lambda function to ingest stac items *)
  role <- read This.lambdaRole ;;
  cfg <- this_config ;;
  ingest <- declare "DCIngestFunction" (DockerImageFunction {|
    Fn.functionName := "DCIngestLambda";
    Fn.code := Props.ingestCode props;
    Fn.role := role;
    Fn.vpc := vpc (Props.osmlVpc props);
    Fn.timeout := seconds (LAMBDA_TIMEOUT cfg);
    Fn.ephemeralStorageSize := gibibytes (LAMBDA_STORAGE_SIZE cfg);
    Fn.memorySize := LAMBDA_MEMORY_SIZE cfg;
    Fn.environment := env;
    Fn.loggingFormat := JSON
  |}) ;;
  assign (This.set_ingestFunction ingest) ;;;
  (* Subscribe Lambda function to the SNS topic *)
  topic <- read This.ingestTopic ;;
  topic <- defined "ingestTopic" topic ;;
  f <- read This.ingestFunction ;;
  f <- defined "ingestFunction" f ;;
  addSubscription topic f ;;;
  f <- read This.ingestFunction ;;
  f <- defined "ingestFunction" f ;;
  onDomain osDomain (Domain.allowFrom f (tcp 443)).

(** Running a computation on a construct that has no field and no child yet. *)
Definition run (c : M State unit) : Error + State :=
  match c fresh with
  | inl e => inl e
  | inr (_, s) => inr s
  end.

(** [new DCDataplane(scope, id, props)]: the object and its subtree, or the
    exception. *)
Definition new_DCDataplane (props : DCDataplaneProps) : Error + State :=
  run (constructor props).

(** *** Predicates on a composed dataplane *)

(** The three collaborator fields are all defined. *)
Definition collaborators_defined (s : State) : Prop :=
  This.lambdaRole (this s) <> None /\
  This.ingestTopic (this s) <> None /\
  This.securityGroup (this s) <> None.

(** What setup and the constructor do with the collaborators that are
    supplied: the role and the topic are the fields as they came, the
    security group id is imported under the id DCImportSecurityGroup. *)
Definition adopted (props : DCDataplaneProps) (s : State) : Prop :=
  (forall r, Props.lambdaRole props = Some r ->
     This.lambdaRole (this s) = Some r /\ count KRole (children s) = 0) /\
  (forall t, Props.ingestTopic props = Some t ->
     This.ingestTopic (this s) = Some t /\ count KTopic (children s) = 0) /\
  (forall g, Props.securityGroupId props = Some g -> g <> "" ->
     This.securityGroup (this s) = Some (Child "DCImportSecurityGroup") /\
     of_kind KImport (children s)
       = [("DCImportSecurityGroup", ImportedSecurityGroup g)]).

(** The decisions in closed form: the config in effect, and for each
    collaborator the handle its field holds with the nodes declared for it. *)
Definition config_in_effect (p : DCDataplaneProps) : DCDataplaneConfig :=
  match Props.config p with
  | Some c => c
  | None => new_DCDataplaneConfig no_args
  end.

Definition topic_decision (p : DCDataplaneProps) : option ITopic * Scope :=
  match Props.ingestTopic p with
  | Some t => (Some t, [])
  | None =>
      (Some (Child "DIOutputTopic"),
       [("DIOutputTopic", Topic (SNS_INGEST_TOPIC_NAME (config_in_effect p)))])
  end.

Definition role_decision (p : DCDataplaneProps) : option IRole * Scope :=
  match Props.lambdaRole p with
  | Some r => (Some r, [])
  | None =>
      (Some (Member (Child "DCLambdaRole") "role"),
       [("DCLambdaRole",
         DCLambdaRole (Props.account p) (LAMBDA_ROLE_NAME (config_in_effect p)))])
  end.

Definition group_decision (p : DCDataplaneProps) : option ISecurityGroup * Scope :=
  match Props.securityGroupId p with
  | Some g =>
      if truthy_string g
      then (Some (Child "DCImportSecurityGroup"),
            [("DCImportSecurityGroup", ImportedSecurityGroup g)])
      else (None, [])
  | None => (None, [])
  end.

Definition decided (p : DCDataplaneProps) (s : State) : Prop :=
  This.config (this s) = Some (config_in_effect p) /\
  This.ingestTopic (this s) = fst (topic_decision p) /\
  of_kind KTopic (children s) = snd (topic_decision p) /\
  This.lambdaRole (this s) = fst (role_decision p) /\
  of_kind KRole (children s) = snd (role_decision p) /\
  This.securityGroup (this s) = fst (group_decision p) /\
  of_kind KImport (children s) = snd (group_decision p).

(** The role and the topic are the ones created by default, named from the
    config in effect, and there is no security group. *)
Definition defaults_created (props : DCDataplaneProps) (s : State) : Prop :=
  exists cfg,
    This.config (this s) = Some cfg /\
    This.lambdaRole (this s) = Some (Member (Child "DCLambdaRole") "role") /\
    of_kind KRole (children s)
      = [("DCLambdaRole",
          DCLambdaRole (Props.account props) (LAMBDA_ROLE_NAME cfg))] /\
    This.ingestTopic (this s) = Some (Child "DIOutputTopic") /\
    of_kind KTopic (children s)
      = [("DIOutputTopic", Topic (SNS_INGEST_TOPIC_NAME cfg))] /\
    This.securityGroup (this s) = None /\
    of_kind KImport (children s) = [].

(** What is decided for one collaborator: the handle the field holds and the
    nodes of its kind that are declared. *)
Definition same_decision {A : Type} (field : This.t -> option A) (k : Kind)
    (p p' : DCDataplaneProps) : Prop :=
  returns (new_DCDataplane p) (fun s =>
    returns (new_DCDataplane p') (fun s' =>
      field (this s') = field (this s) /\
      of_kind k (children s') = of_kind k (children s))).

(** The same, up to the properties the node was declared with. *)
Definition same_choice {A : Type} (field : This.t -> option A) (k : Kind)
    (p p' : DCDataplaneProps) : Prop :=
  returns (new_DCDataplane p) (fun s =>
    returns (new_DCDataplane p') (fun s' =>
      field (this s') = field (this s) /\
      count k (children s') = count k (children s))).

(** The rule of a parameter with a default: an argument that is given is the
    value of the field, whatever the other arguments are, and an argument
    that is omitted leaves the default. *)
Definition argument_rule {A : Type} (arg : option A) (default field : A) : Prop :=
  (forall v, arg = Some v -> field = v) /\ (arg = None -> field = default).

Definition arguments_kept (a : DCDataplaneConfigArgs) (c : DCDataplaneConfig) : Prop :=
  argument_rule (arg_LAMBDA_ROLE_NAME a) "DCLambdaRole" (LAMBDA_ROLE_NAME c) /\
  argument_rule (arg_LAMBDA_MEMORY_SIZE a) 4096%Z (LAMBDA_MEMORY_SIZE c) /\
  argument_rule (arg_LAMBDA_STORAGE_SIZE a) 10%Z (LAMBDA_STORAGE_SIZE c) /\
  argument_rule (arg_LAMBDA_TIMEOUT a) 300%Z (LAMBDA_TIMEOUT c) /\
  argument_rule (arg_OS_DATA_NODES a) 4%Z (OS_DATA_NODES c) /\
  argument_rule (arg_OS_EBS_SIZE a) 10%Z (OS_EBS_SIZE c) /\
  argument_rule (arg_STAC_FASTAPI_BACKEND a) "opensearch" (STAC_FASTAPI_BACKEND c) /\
  argument_rule (arg_STAC_FASTAPI_TITLE a) "stac-fastapi-opensearch"
                (STAC_FASTAPI_TITLE c) /\
  argument_rule (arg_STAC_FASTAPI_DESCRIPTION a)
                "A STAC FastAPI with an OpenSearch backend"
                (STAC_FASTAPI_DESCRIPTION c) /\
  argument_rule (arg_STAC_FASTAPI_VERSION a) "2.4.1" (STAC_FASTAPI_VERSION c) /\
  argument_rule (arg_STAC_FASTAPI_ROOT_PATH a) "data-catalog"
                (STAC_FASTAPI_ROOT_PATH c) /\
  argument_rule (arg_RELOAD a) "true" (RELOAD c) /\
  argument_rule (arg_ENVIRONMENT a) "local" (ENVIRONMENT c) /\
  argument_rule (arg_WEB_CONCURRENCY a) "10" (WEB_CONCURRENCY c) /\
  argument_rule (arg_ES_PORT a) "443" (ES_PORT c) /\
  argument_rule (arg_ES_USE_SSL a) "true" (ES_USE_SSL c) /\
  argument_rule (arg_ES_VERIFY_CERTS a) "true" (ES_VERIFY_CERTS c) /\
  argument_rule (arg_SERVICE_NAME_ABBREVIATION a) "DC"
                (SERVICE_NAME_ABBREVIATION c) /\
  argument_rule (arg_SNS_INGEST_TOPIC_NAME a) "osml-stac-ingest"
                (SNS_INGEST_TOPIC_NAME c).

End DC.

(** ** roles/ts_lambda_role.ts *)

Module TS.

Import Compose Cdk Osml.
Local Open Scope compose_scope.

(** Modelled from the spec: the class [TSDataplaneConfig] of ts_dataplane.ts,
    which is not among the sources.  The role reads one field of it, the name
    of the DynamoDB job table. *)
Record TSDataplaneConfig : Type := {
  DDB_JOB_TABLE : string
}.

Record TSLambdaRoleProps : Type := {
  account : OSMLAccount;
  roleName : string
}.

(** [region_info.FactName.PARTITION] *)
Definition FactName_PARTITION : string := "partition".

(** An IAM role: the properties it was created with and the statements
    [addToPolicy] has attached to it since. *)
Module Role.
Record t : Type := {
  roleName : string;
  assumedBy : Principal;
  description : string;
  policy : list PolicyStatement
}.

Definition addToPolicy (st : PolicyStatement) (r : t) : t :=
  {| roleName := roleName r; assumedBy := assumedBy r;
     description := description r; policy := policy r ++ [st] |}.
End Role.

(** The public fields of a [TSLambdaRole].  [partition] is declared a
    [string]; the non-null assertion of the source is erased by the compiler,
    so at run time the field holds whatever the lookup returned. *)
Module This.
Record t : Type := {
  role : option IRole;
  partition : option string;
  tsDataplaneConfig : TSDataplaneConfig
}.
End This.

Record State : Type := {
  this : This.t;
  children : list (string * Role.t)
}.

Fixpoint tryFindChild (id : string) (sc : list (string * Role.t)) : option Role.t :=
  match sc with
  | [] => None
  | (i, r) :: rest => if i =? id then Some r else tryFindChild id rest
  end.

Fixpoint replaceChild (id : string) (r : Role.t) (sc : list (string * Role.t))
    : list (string * Role.t) :=
  match sc with
  | [] => []
  | (i, m) :: rest =>
      if i =? id then (i, r) :: rest else (i, m) :: replaceChild id r rest
  end.

Definition assign (f : This.t -> This.t) : M State unit :=
  modify (fun s => {| this := f (this s); children := children s |}).

Definition read {A : Type} (f : This.t -> A) : M State A :=
  s <- get ;; ret (f (this s)).

(** [new Role(this, id, {...})] *)
Definition new_Role (id : string) (r : Role.t) : M State Ref :=
  s <- get ;;
  match tryFindChild id (children s) with
  | Some _ => throw (DuplicateConstruct id)
  | None =>
      modify (fun s => {| this := this s;
                          children := (children s ++ [(id, r)])%list |}) ;;;
      ret (Child id)
  end.

(** [role.addToPolicy(statement)] *)
Definition addToPolicy (role : Ref) (st : PolicyStatement) : M State unit :=
  match role with
  | Child id =>
      s <- get ;;
      match tryFindChild id (children s) with
      | Some r =>
          modify (fun s => {| this := this s;
                              children := replaceChild id (Role.addToPolicy st r)
                                                       (children s) |})
      | None => throw (NoSuchConstruct id)
      end
  | Foreign h => throw (NoSuchConstruct h)
  | Member _ f => throw (NoSuchConstruct f)
  end.

Section Constructor.

(** [region_info.Fact.find(region, name)] of aws-cdk-lib: the fact recorded
    for the region under that name, [undefined] when there is none. *)
Variable Fact_find : string -> string -> option string.

(** [new TSDataplaneConfig()], the value of the field initializer. *)
Variable new_TSDataplaneConfig : TSDataplaneConfig.

Definition fresh : State :=
  {| this := {| This.role := None; This.partition := None;
                This.tsDataplaneConfig := new_TSDataplaneConfig |};
     children := [] |}.

Definition constructor (props : TSLambdaRoleProps) : M State unit :=
  (* Determine the AWS partition based on the provided AWS region *)
  assign (fun o => {| This.role := This.role o;
                      This.partition :=
                        Fact_find (region (account props)) FactName_PARTITION;
                      This.tsDataplaneConfig := This.tsDataplaneConfig o |}) ;;;
  (* Create an AWS IAM role for the Tile Server Lambda Sweeper Function *)
  role <- new_Role "TSLambdaRole" {|
    Role.roleName := roleName props;
    Role.assumedBy := CompositePrincipal [ServicePrincipal "lambda.amazonaws.com"];
    Role.description :=
      "Allows the OversightML Tile Server Lambda Sweeper to access necessary AWS services (CW, SQS, DynamoDB, ...)";
    Role.policy := []
  |} ;;
  (* Add permissions for AWS DynamoDb Service (DDB) *)
  partition <- read This.partition ;;
  cfg <- read This.tsDataplaneConfig ;;
  addToPolicy role
    (new_PolicyStatement (Some ALLOW) []
       ["dynamodb:GetItem"; "dynamodb:PutItem"; "dynamodb:UpdateItem"]
       [Str ("arn:" ++ interpolate partition ++ ":dynamodb:"
             ++ region (account props) ++ ":" ++ id (account props)
             ++ ":table/" ++ DDB_JOB_TABLE cfg)]) ;;;
  (* Add permissions for the Lambda to have access to EC2 VPCs / Subnets / ELB *)
  partition <- read This.partition ;;
  addToPolicy role
    (new_PolicyStatement (Some ALLOW) []
       ["lambda:GetFunctionConfiguration"]
       [Str ("arn:" ++ interpolate partition ++ ":lambda:"
             ++ region (account props) ++ ":" ++ id (account props)
             ++ ":function:*")]) ;;;
  (* Add permissions for the Lambda to have access to EC2 VPCs / Subnets / ELB *)
  addToPolicy role
    (new_PolicyStatement (Some ALLOW) []
       ["elasticloadbalancing:DescribeLoadBalancers";
        "ec2:CreateNetworkInterface";
        "ec2:DescribeNetworkInterfaces";
        "ec2:DeleteNetworkInterface";
        "ec2:DescribeInstances";
        "ec2:AttachNetworkInterface"]
       [Str "*"]) ;;;
  (* Add permissions for AWS Cloudwatch Event (DDB) *)
  partition <- read This.partition ;;
  addToPolicy role
    (new_PolicyStatement (Some ALLOW) []
       ["logs:CreateLogGroup"; "logs:CreateLogStream"; "logs:PutLogEvents"]
       [Str ("arn:" ++ interpolate partition ++ ":logs:"
             ++ region (account props) ++ ":" ++ id (account props)
             ++ ":*")]) ;;;
  (* Set the TSLambdaRole property to the created role *)
  assign (fun o => {| This.role := Some role;
                      This.partition := This.partition o;
                      This.tsDataplaneConfig := This.tsDataplaneConfig o |}).

(** [new TSLambdaRole(scope, id, props)]: the object and its subtree, or
    the exception. *)
Definition new_TSLambdaRole (props : TSLambdaRoleProps) : Error + State :=
  match constructor props fresh with
  | inl e => inl e
  | inr (_, s) => inr s
  end.

End Constructor.

(** The role a [TSLambdaRole] holds in its field [role], looked up in its
    subtree. *)
Definition role_of (s : State) : option Role.t :=
  match This.role (this s) with
  | Some (Child id) => tryFindChild id (children s)
  | _ => None
  end.

(** The ARN format [arn:partition:service:region:account:resource]. *)
Definition arn (partition service region account resource : string) : string :=
  String.concat ":" ["arn"; partition; service; region; account; resource].

(** The four statements of the role for a given partition, each with its
    fixed list of actions. *)
Definition enumerated (config : TSDataplaneConfig) (partition : string)
    (a : OSMLAccount) : list PolicyStatement :=
  [ {| effect := ALLOW; principals := [];
       actions := ["dynamodb:GetItem"; "dynamodb:PutItem"; "dynamodb:UpdateItem"];
       resources := [Str (arn partition "dynamodb" (region a) (id a)
                              ("table/" ++ DDB_JOB_TABLE config))] |};
    {| effect := ALLOW; principals := [];
       actions := ["lambda:GetFunctionConfiguration"];
       resources := [Str (arn partition "lambda" (region a) (id a)
                              "function:*")] |};
    {| effect := ALLOW; principals := [];
       actions := ["elasticloadbalancing:DescribeLoadBalancers";
                   "ec2:CreateNetworkInterface";
                   "ec2:DescribeNetworkInterfaces";
                   "ec2:DeleteNetworkInterface";
                   "ec2:DescribeInstances";
                   "ec2:AttachNetworkInterface"];
       resources := [Str "*"] |};
    {| effect := ALLOW; principals := [];
       actions := ["logs:CreateLogGroup"; "logs:CreateLogStream";
                   "logs:PutLogEvents"];
       resources := [Str (arn partition "logs" (region a) (id a) "*")] |} ].

End TS.

(** ** osml_sm_endpoint.ts *)

Module SM.

Import Cdk Osml.

(** [SubnetType] of aws-cdk-lib/aws-ec2. *)
Inductive SubnetType : Type :=
| PRIVATE_ISOLATED | PRIVATE_WITH_EGRESS | PUBLIC.

(** A container definition of a [CfnModel]; every property is optional. *)
Record ContainerDefinition : Type := {
  image : option string;
  environment : option (list (string * string));
  imageConfig_repositoryAccessMode : option string
}.

Module Model.
Record t : Type := {
  executionRoleArn : string;
  containers : list ContainerDefinition;
  vpcConfig_subnets : list string;
  vpcConfig_securityGroupIds : list CfnValue;
  primaryContainer : option ContainerDefinition
}.
End Model.

(** What happens to a construct that is given a scope and an id, as the
    constructs library does it: path separators in the id are replaced, an
    empty id is refused, and so is a name the scope has already. *)
Inductive Failure : Type :=
| EmptyId                      (* Only root constructs may have an empty ID *)
| NameTaken (name : string).   (* There is already a Construct with name ... *)

Fixpoint sanitizeId (id : string) : string :=
  match id with
  | EmptyString => EmptyString
  | String c rest =>
      if Ascii.eqb c "/"%char
      then String "-"%char (String "-"%char (sanitizeId rest))
      else String c (sanitizeId rest)
  end.

(** A production variant and the properties of the construct.  The values of
    type [number] are handed on as they come: the type is left open. *)
Module Variant.
Local Set Implicit Arguments.
Record t (number : Type) : Type := {
  initialInstanceCount : number;
  initialVariantWeight : number;
  instanceType : string;
  modelName : CfnValue;
  variantName : string
}.
End Variant.

Module Props.
Local Set Implicit Arguments.
Record t (number : Type) : Type := {
  roleArn : string;
  modelContainer : string;
  modelName : string;
  initialInstanceCount : number;
  initialVariantWeight : number;
  instanceType : string;
  variantName : string;
  vpc : IVpc;
  vpcSecurityGroup : Ref
}.
End Props.

Section Endpoint.

Context {number : Type}.

(** [vpc.selectSubnets({ subnetType })] of the caller's network. *)
Variable selectSubnets : IVpc -> SubnetType -> SelectedSubnets.

Definition OSMLSMEndpointProps : Type := Props.t number.

Record EndpointConfig : Type := {
  productionVariants : list (Variant.t number)
}.

Record Endpoint : Type := {
  endpointConfigName : CfnValue;
  endpointName : string
}.

Inductive Node : Type :=
| CfnModel (m : Model.t)
| CfnEndpointConfig (c : EndpointConfig)
| CfnEndpoint (e : Endpoint).

Definition Scope : Type := list (string * Node).

Fixpoint tryFindChild (name : string) (sc : Scope) : option Node :=
  match sc with
  | [] => None
  | (i, n) :: rest => if i =? name then Some n else tryFindChild name rest
  end.

(** [new C(scope, id, ...)] seen from the scope: the children with the new
    one, and the reference to it. *)
Definition addChild (id : string) (n : Node) (sc : Scope) : Failure + (Ref * Scope) :=
  let name := sanitizeId id in
  if name =? "" then inl EmptyId
  else match tryFindChild name sc with
       | Some _ => inl (NameTaken name)
       | None => inr (Child name, (sc ++ [(name, n)])%list)
       end.

(** The public fields of an [OSMLSMEndpoint] and its children. *)
Record OSMLSMEndpoint : Type := {
  model : Ref;
  endpointConfig : Ref;
  endpoint : Ref;
  children : Scope
}.

(** [new OSMLSMEndpoint(scope, id, props)], the caller's scope left out: the
    object, or the exception. *)
Definition new_OSMLSMEndpoint (id : string) (props : OSMLSMEndpointProps)
    : Failure + OSMLSMEndpoint :=
  (* super(scope, id) *)
  if sanitizeId id =? "" then inl EmptyId else
  let vpcSubnetSelection := selectSubnets (Props.vpc props) PRIVATE_WITH_EGRESS in
  match
    addChild id (CfnModel {|
      Model.executionRoleArn := Props.roleArn props;
      Model.containers :=
        [ {| image := Some (Props.modelContainer props);
             environment := Some [("MODEL_SELECTION", Props.modelName props)];
             imageConfig_repositoryAccessMode := None |} ];
      Model.vpcConfig_subnets := subnetIds vpcSubnetSelection;
      Model.vpcConfig_securityGroupIds :=
        [Attr (Props.vpcSecurityGroup props) "securityGroupId"];
      Model.primaryContainer :=
        Some {| image := None; environment := None;
                imageConfig_repositoryAccessMode := Some "Vpc" |}
    |}) []
  with
  | inl e => inl e
  | inr (this_model, sc1) =>
      (* configure our SageMaker endpoint *)
      match
        addChild (id ++ "-EndpointConfig") (CfnEndpointConfig {|
          productionVariants :=
            [ {| Variant.initialInstanceCount := Props.initialInstanceCount props;
                 Variant.initialVariantWeight := Props.initialVariantWeight props;
                 Variant.instanceType := Props.instanceType props;
                 Variant.modelName := Attr this_model "attrModelName";
                 Variant.variantName := Props.variantName props |} ]
        |}) sc1
      with
      | inl e => inl e
      | inr (this_endpointConfig, sc2) =>
          (* host a SageMaker endpoint on top of the imported centerPointModel *)
          match
            addChild (id ++ "-Endpoint") (CfnEndpoint {|
              endpointConfigName :=
                Attr this_endpointConfig "attrEndpointConfigName";
              endpointName := Props.modelName props
            |}) sc2
          with
          | inl e => inl e
          | inr (this_endpoint, sc3) =>
              inr {| model := this_model;
                     endpointConfig := this_endpointConfig;
                     endpoint := this_endpoint;
                     children := sc3 |}
          end
      end
  end.

(** The object a reference of this construct stands for. *)
Definition deref (o : OSMLSMEndpoint) (r : Ref) : option Node :=
  match r with
  | Child name => tryFindChild name (children o)
  | _ => None
  end.

End Endpoint.



End SM.

(** ** Concrete inputs *)

Module Samples.

Import Cdk Osml.

Definition test_account : OSMLAccount :=
  {| id := "123456789012"; region := "us-east-1"; prodLike := false;
     auth := Some false |}.

Definition auth_account : OSMLAccount :=
  {| id := "123456789012"; region := "us-east-1"; prodLike := true;
     auth := Some true |}.

Definition test_vpc : OSMLVpc :=
  {| vpc := Foreign "OSMLVpc";
     selectedSubnets := {| subnetIds := ["subnet-a"; "subnet-b"] |} |}.

(** A dataplane with the required properties only. *)
Definition bare_props (a : OSMLAccount) : DC.DCDataplaneProps :=
  {| DC.Props.account := a;
     DC.Props.osmlVpc := test_vpc;
     DC.Props.stacCode := Foreign "stacCode";
     DC.Props.ingestCode := Foreign "ingestCode";
     DC.Props.ingestTopic := None;
     DC.Props.securityGroupId := None;
     DC.Props.lambdaRole := None;
     DC.Props.config := None |}.

(** A dataplane that brings its own topic, security group and role. *)
Definition byo_props : DC.DCDataplaneProps :=
  {| DC.Props.account := test_account;
     DC.Props.osmlVpc := test_vpc;
     DC.Props.stacCode := Foreign "stacCode";
     DC.Props.ingestCode := Foreign "ingestCode";
     DC.Props.ingestTopic := Some (Foreign "MyTopic");
     DC.Props.securityGroupId := Some "sg-0123456789abcdef0";
     DC.Props.lambdaRole := Some (Foreign "MyRole");
     DC.Props.config := None |}.

(** A dataplane whose security group id is the empty string. *)
Definition empty_sg_props : DC.DCDataplaneProps :=
  {| DC.Props.account := test_account;
     DC.Props.osmlVpc := test_vpc;
     DC.Props.stacCode := Foreign "stacCode";
     DC.Props.ingestCode := Foreign "ingestCode";
     DC.Props.ingestTopic := None;
     DC.Props.securityGroupId := Some "";
     DC.Props.lambdaRole := None;
     DC.Props.config := None |}.

(** A fact database that knows the partition of three regions. *)
Definition facts (region name : string) : option string :=
  if name =? "partition" then
    if region =? "us-east-1" then Some "aws"
    else if region =? "cn-north-1" then Some "aws-cn"
    else if region =? "us-gov-west-1" then Some "aws-us-gov"
    else None
  else None.

Definition ts_role_props : TS.TSLambdaRoleProps :=
  {| TS.account := test_account; TS.roleName := "TSLambdaRole" |}.

(** A tile server config with a job table name. *)
Definition ts_config : TS.TSDataplaneConfig :=
  {| TS.DDB_JOB_TABLE := "TSJobTable" |}.

(** A region the fact database does not know. *)
Definition unknown_region_props : TS.TSLambdaRoleProps :=
  {| TS.account := {| id := "123456789012"; region := "mars-central-1";
                      prodLike := false; auth := None |};
     TS.roleName := "TSLambdaRole" |}.

End Samples.

(** ** Further predicates and inputs *)

Module DCMore.

Import Compose Cdk Osml DC.
Local Open Scope compose_scope.

(** The children of a dataplane but for the imported security group. *)
Definition without_imports (sc : Scope) : Scope :=
  filter (fun c => negb (Kind_eqb (kind (snd c)) KImport)) sc.

(** The same config but for the two fields OS_EBS_SIZE and
    STAC_FASTAPI_BACKEND. *)
Definition with_ebs_and_backend (ebs : Z) (backend : string)
    (c : DCDataplaneConfig) : DCDataplaneConfig := {|
  LAMBDA_ROLE_NAME := LAMBDA_ROLE_NAME c;
  LAMBDA_MEMORY_SIZE := LAMBDA_MEMORY_SIZE c;
  LAMBDA_STORAGE_SIZE := LAMBDA_STORAGE_SIZE c;
  LAMBDA_TIMEOUT := LAMBDA_TIMEOUT c;
  OS_DATA_NODES := OS_DATA_NODES c;
  OS_EBS_SIZE := ebs;
  STAC_FASTAPI_BACKEND := backend;
  STAC_FASTAPI_TITLE := STAC_FASTAPI_TITLE c;
  STAC_FASTAPI_DESCRIPTION := STAC_FASTAPI_DESCRIPTION c;
  STAC_FASTAPI_VERSION := STAC_FASTAPI_VERSION c;
  STAC_FASTAPI_ROOT_PATH := STAC_FASTAPI_ROOT_PATH c;
  RELOAD := RELOAD c;
  ENVIRONMENT := ENVIRONMENT c;
  WEB_CONCURRENCY := WEB_CONCURRENCY c;
  ES_PORT := ES_PORT c;
  ES_USE_SSL := ES_USE_SSL c;
  ES_VERIFY_CERTS := ES_VERIFY_CERTS c;
  SERVICE_NAME_ABBREVIATION := SERVICE_NAME_ABBREVIATION c;
  SNS_INGEST_TOPIC_NAME := SNS_INGEST_TOPIC_NAME c
|}.



(** The function declared under an id. *)
Definition function_at (id : string) (s : State) : option Fn.t :=
  match tryFindChild id (children s) with
  | Some (DockerImageFunction f) => Some f
  | _ => None
  end.

(** The domain declared under an id. *)
Definition domain_at (id : string) (s : State) : option Domain.t :=
  match tryFindChild id (children s) with
  | Some (OSDomain d) => Some d
  | _ => None
  end.

(** [new DCDataplaneConfig("CustomRole", 8192)]: two arguments given, the
    other seventeen omitted. *)
Definition role_and_memory_args : DCDataplaneConfigArgs := {|
  arg_LAMBDA_ROLE_NAME := Some "CustomRole";
  arg_LAMBDA_MEMORY_SIZE := Some 8192%Z;
  arg_LAMBDA_STORAGE_SIZE := None;
  arg_LAMBDA_TIMEOUT := None;
  arg_OS_DATA_NODES := None;
  arg_OS_EBS_SIZE := None;
  arg_STAC_FASTAPI_BACKEND := None;
  arg_STAC_FASTAPI_TITLE := None;
  arg_STAC_FASTAPI_DESCRIPTION := None;
  arg_STAC_FASTAPI_VERSION := None;
  arg_STAC_FASTAPI_ROOT_PATH := None;
  arg_RELOAD := None;
  arg_ENVIRONMENT := None;
  arg_WEB_CONCURRENCY := None;
  arg_ES_PORT := None;
  arg_ES_USE_SSL := None;
  arg_ES_VERIFY_CERTS := None;
  arg_SERVICE_NAME_ABBREVIATION := None;
  arg_SNS_INGEST_TOPIC_NAME := None
|}.

End DCMore.

Module TSMore.

(** The actions of the statement whose resource is not narrowed. *)
Definition network_actions : list string :=
  [ "elasticloadbalancing:DescribeLoadBalancers";
    "ec2:CreateNetworkInterface";
    "ec2:DescribeNetworkInterfaces";
    "ec2:DeleteNetworkInterface";
    "ec2:DescribeInstances";
    "ec2:AttachNetworkInterface" ].

End TSMore.

Module SMSamples.

Import Cdk Osml.

(** A network with two private subnets with egress and one public subnet. *)
Definition selectSubnets (v : IVpc) (t : SM.SubnetType) : SelectedSubnets :=
  match t with
  | SM.PRIVATE_WITH_EGRESS => {| subnetIds := ["subnet-a"; "subnet-b"] |}
  | SM.PUBLIC => {| subnetIds := ["subnet-p"] |}
  | SM.PRIVATE_ISOLATED => {| subnetIds := [] |}
  end.

(** The same network seen without its public subnet. *)
Definition selectSubnets_private_only (v : IVpc) (t : SM.SubnetType)
    : SelectedSubnets :=
  match t with
  | SM.PRIVATE_WITH_EGRESS => {| subnetIds := ["subnet-a"; "subnet-b"] |}
  | _ => {| subnetIds := [] |}
  end.

Definition endpoint_props : SM.Props.t Z :=
  {| SM.Props.roleArn := "arn:aws:iam::123456789012:role/SMRole";
     SM.Props.modelContainer := "123456789012.dkr.ecr.us-east-1.amazonaws.com/models:latest";
     SM.Props.modelName := "centerpoint";
     SM.Props.initialInstanceCount := 1%Z;
     SM.Props.initialVariantWeight := 1%Z;
     SM.Props.instanceType := "ml.m5.xlarge";
     SM.Props.variantName := "AllTraffic";
     SM.Props.vpc := Foreign "OSMLVpc";
     SM.Props.vpcSecurityGroup := Foreign "ModelSecurityGroup" |}.

End SMSamples.

(** ** Reasoning about a pass that returns *)

Module ComposeFacts.

Import Compose.

Lemma returns_inr {A : Type} (r : Error + A) (post : A -> Prop) :
  returns r post <-> exists a, r = inr a /\ post a.
Proof.
  destruct r as [e|a]; simpl; split.
  - intros [].
  - intros [a [H _]]; discriminate H.
  - intros H; exists a; split; [reflexivity | exact H].
  - intros [a' [H P]]; injection H as ->; exact P.
Qed.

Lemma returns_weaken {A : Type} (r : Error + A) (P Q : A -> Prop) :
  returns r P -> (forall a, P a -> Q a) -> returns r Q.
Proof.
  destruct r as [e|a]; simpl; auto.
Defined.

Lemma returns_both {A B : Type} (r : Error + A) (r' : Error + B)
    (P : A -> Prop) (P' : B -> Prop) (Q : A -> B -> Prop) :
  returns r P -> returns r' P' ->
  (forall a b, P a -> P' b -> Q a b) ->
  returns r (fun a => returns r' (fun b => Q a b)).
Proof.
  destruct r as [e|a], r' as [e'|b]; simpl; auto; intros [].
Qed.

End ComposeFacts.

(** ** Properties of the data catalog dataplane *)

Module DCProofs.

Import Compose ComposeFacts Cdk Osml DC.

(** Every path through the constructor is fixed by which optional properties
    are present, by the truthiness of the security group id and by the flag
    auth of the account. *)
Ltac paths props :=
  destruct props as [[aid areg prod0 [[|]|]] vpc0 stac0 ingest0
                       [topic0|] [[|ch0 sg0]|] [role0|] [cfg0|]].

Ltac conjuncts := repeat match goal with |- _ /\ _ => split end.

Ltac evaluated :=
  vm_compute;
  repeat match goal with
         | |- _ /\ _ => split
         | |- exists _, _ => eexists
         end;
  reflexivity.

(** *** The constructor in closed form *)

(** The constructor returns: no path through it throws. *)
Lemma constructor_returns (props : DCDataplaneProps) :
  returns (new_DCDataplane props) (fun _ => True).
Proof.
  paths props; exact I.
Qed.

Lemma setup_decides (p : DCDataplaneProps) :
  returns (run (setup p)) (fun s =>
    decided p s /\ of_kind KSecurityGroup (children s) = []).
Proof.
  paths p; evaluated.
Qed.

Lemma constructor_decides (p : DCDataplaneProps) :
  returns (new_DCDataplane p) (decided p).
Proof.
  paths p; evaluated.
Qed.

Lemma truthy_flag_true (o : option bool) :
  truthy_flag o = true <-> o = Some true.
Proof.
  destruct o as [[|]|]; simpl; split; intros H;
    solve [reflexivity | discriminate H].
Qed.

Lemma truthy_string_nonempty (g : string) :
  truthy_string g = true <-> g <> "".
Proof.
  destruct g as [|c g]; simpl; split; intros H;
    solve [reflexivity | discriminate | congruence].
Qed.

Lemma decided_defaults (p : DCDataplaneProps) (s : State) :
  Props.ingestTopic p = None ->
  Props.securityGroupId p = None ->
  Props.lambdaRole p = None ->
  decided p s -> defaults_created p s.
Proof.
  unfold decided, defaults_created, topic_decision, role_decision, group_decision.
  intros -> -> -> (Hc & Ht & Htn & Hr & Hrn & Hg & Hgn).
  exists (config_in_effect p). repeat split; assumption.
Qed.

Lemma decided_adopted (p : DCDataplaneProps) (s : State) :
  decided p s -> adopted p s.
Proof.
  unfold decided, adopted, count, topic_decision, role_decision, group_decision.
  intros (Hc & Ht & Htn & Hr & Hrn & Hg & Hgn).
  split; [|split].
  - intros r Hsupplied.
    rewrite Hr, Hrn, Hsupplied. split; reflexivity.
  - intros t Hsupplied.
    rewrite Ht, Htn, Hsupplied. split; reflexivity.
  - intros g Hsupplied Hnonempty.
    apply truthy_string_nonempty in Hnonempty.
    rewrite Hg, Hgn, Hsupplied, Hnonempty. split; reflexivity.
Qed.

(** *** Reuse or create *)

(** C1, as stated, fails: with the three optional collaborators omitted the
    field securityGroup is still undefined after setup and after the whole
    constructor. *)
Lemma omitted_security_group_stays_undefined :
  Props.ingestTopic (Samples.bare_props Samples.test_account) = None /\
  Props.securityGroupId (Samples.bare_props Samples.test_account) = None /\
  Props.lambdaRole (Samples.bare_props Samples.test_account) = None /\
  ~ returns (run (setup (Samples.bare_props Samples.test_account)))
            collaborators_defined /\
  ~ returns (new_DCDataplane (Samples.bare_props Samples.test_account))
            collaborators_defined.
Proof.
  conjuncts; try reflexivity;
    vm_compute; intros (_ & _ & H); apply H; reflexivity.
Qed.

(** C1, amended: with the three optional collaborators omitted, after setup
    and after the whole constructor the fields lambdaRole and ingestTopic
    hold resources created by default (the role of a new DCLambdaRole named
    LAMBDA_ROLE_NAME and a new topic named SNS_INGEST_TOPIC_NAME, both names
    from the config in effect), and the field securityGroup is undefined: no
    security group is imported or created for it. *)
Theorem omitted_collaborators_get_defaults (props : DCDataplaneProps)
    (Htopic : Props.ingestTopic props = None)
    (Hgroup : Props.securityGroupId props = None)
    (Hrole : Props.lambdaRole props = None) :
  returns (run (setup props)) (defaults_created props) /\
  returns (new_DCDataplane props) (defaults_created props).
Proof.
  split.
  - apply (returns_weaken _ _ _ (setup_decides props)).
    intros s [H _]. now apply decided_defaults.
  - apply (returns_weaken _ _ _ (constructor_decides props)).
    intros s H. now apply decided_defaults.
Qed.

Lemma omitted_collaborators_get_defaults_witness :
  Props.ingestTopic (Samples.bare_props Samples.test_account) = None /\
  Props.securityGroupId (Samples.bare_props Samples.test_account) = None /\
  Props.lambdaRole (Samples.bare_props Samples.test_account) = None /\
  returns (new_DCDataplane (Samples.bare_props Samples.test_account)) (fun s =>
    This.lambdaRole (this s) = Some (Member (Child "DCLambdaRole") "role") /\
    This.ingestTopic (this s) = Some (Child "DIOutputTopic") /\
    This.securityGroup (this s) = None).
Proof.
  conjuncts; try reflexivity.
  destruct (omitted_collaborators_get_defaults
              (Samples.bare_props Samples.test_account)
              eq_refl eq_refl eq_refl) as [_ H].
  apply (returns_weaken _ _ _ H).
  intros s (cfg & _ & Hr & _ & Ht & _ & Hg & _).
  exact (conj Hr (conj Ht Hg)).
Defined.

(** C2, as stated, fails for the security group: an id that is supplied but
    is the empty string is not adopted, and the field securityGroup is
    undefined after setup and after the whole constructor. *)
Lemma empty_security_group_id_is_not_adopted :
  Props.securityGroupId Samples.empty_sg_props = Some "" /\
  ~ returns (run (setup Samples.empty_sg_props))
            (fun s => This.securityGroup (this s) <> None) /\
  ~ returns (new_DCDataplane Samples.empty_sg_props)
            (fun s => This.securityGroup (this s) <> None).
Proof.
  conjuncts; try reflexivity; vm_compute; intros H; apply H; reflexivity.
Qed.

(** C2, amended: a supplied role and a supplied topic are adopted verbatim
    as the fields lambdaRole and ingestTopic, and no role, respectively no
    topic, is declared; a supplied security group id that is not the empty
    string is imported, without validation, as the reference
    DCImportSecurityGroup carrying exactly that id, which the field
    securityGroup holds, and setup declares no new security group. *)
Theorem supplied_collaborators_are_adopted (props : DCDataplaneProps) :
  returns (run (setup props)) (fun s =>
    adopted props s /\ count KSecurityGroup (children s) = 0) /\
  returns (new_DCDataplane props) (adopted props).
Proof.
  split.
  - apply (returns_weaken _ _ _ (setup_decides props)).
    intros s [H Hnone]. split; [now apply decided_adopted|].
    unfold count; rewrite Hnone; reflexivity.
  - apply (returns_weaken _ _ _ (constructor_decides props)).
    intros s H. now apply decided_adopted.
Qed.

Lemma supplied_collaborators_are_adopted_witness :
  Props.lambdaRole Samples.byo_props = Some (Foreign "MyRole") /\
  Props.ingestTopic Samples.byo_props = Some (Foreign "MyTopic") /\
  Props.securityGroupId Samples.byo_props = Some "sg-0123456789abcdef0" /\
  returns (new_DCDataplane Samples.byo_props) (fun s =>
    This.lambdaRole (this s) = Some (Foreign "MyRole") /\
    This.ingestTopic (this s) = Some (Foreign "MyTopic") /\
    This.securityGroup (this s) = Some (Child "DCImportSecurityGroup") /\
    of_kind KImport (children s)
      = [("DCImportSecurityGroup", ImportedSecurityGroup "sg-0123456789abcdef0")] /\
    count KRole (children s) = 0 /\
    count KTopic (children s) = 0).
Proof.
  conjuncts; try reflexivity.
  destruct (supplied_collaborators_are_adopted Samples.byo_props) as [_ H].
  apply (returns_weaken _ _ _ H).
  intros s (Hr & Ht & Hg).
  destruct (Hr _ eq_refl) as [Hr1 Hr2].
  destruct (Ht _ eq_refl) as [Ht1 Ht2].
  destruct (Hg _ eq_refl) as [Hg1 Hg2]; [discriminate|].
  conjuncts; assumption.
Defined.

(** *** The config in effect *)

(** C5: the config in effect is the supplied config itself when there is
    one and a config built from no argument otherwise; a config built from
    no argument holds the default of every field.  In a config built from
    any arguments, all, some or none, every field whose argument is given
    holds that argument, whatever the other arguments are, and every field
    whose argument is omitted holds its default; built from nineteen
    explicit arguments it holds exactly those. *)
Theorem config_is_replaced_wholesale (props : DCDataplaneProps) :
  returns (new_DCDataplane props) (fun s =>
    This.config (this s)
      = Some match Props.config props with
             | Some c => c
             | None => new_DCDataplaneConfig no_args
             end) /\
  new_DCDataplaneConfig no_args = documented_defaults /\
  LAMBDA_MEMORY_SIZE (new_DCDataplaneConfig no_args) = 4096%Z /\
  LAMBDA_TIMEOUT (new_DCDataplaneConfig no_args) = 300%Z /\
  SNS_INGEST_TOPIC_NAME (new_DCDataplaneConfig no_args) = "osml-stac-ingest" /\
  (forall c, new_DCDataplaneConfig (all_args c) = c) /\
  (forall a, arguments_kept a (new_DCDataplaneConfig a)).
Proof.
  conjuncts; try reflexivity.
  - apply (returns_weaken _ _ _ (constructor_decides props)).
    intros s (Hc & _). exact Hc.
  - intros []; reflexivity.
  - intros a. unfold arguments_kept, argument_rule, new_DCDataplaneConfig.
    cbn [LAMBDA_ROLE_NAME LAMBDA_MEMORY_SIZE LAMBDA_STORAGE_SIZE LAMBDA_TIMEOUT
         OS_DATA_NODES OS_EBS_SIZE STAC_FASTAPI_BACKEND STAC_FASTAPI_TITLE
         STAC_FASTAPI_DESCRIPTION STAC_FASTAPI_VERSION STAC_FASTAPI_ROOT_PATH
         RELOAD ENVIRONMENT WEB_CONCURRENCY ES_PORT ES_USE_SSL ES_VERIFY_CERTS
         SERVICE_NAME_ABBREVIATION SNS_INGEST_TOPIC_NAME].
    conjuncts; intros; match goal with H : _ = _ |- _ => rewrite H end;
      reflexivity.
Qed.

Lemma config_is_replaced_wholesale_witness :
  arg_LAMBDA_ROLE_NAME DCMore.role_and_memory_args = Some "CustomRole" /\
  arg_LAMBDA_MEMORY_SIZE DCMore.role_and_memory_args = Some 8192%Z /\
  arg_LAMBDA_TIMEOUT DCMore.role_and_memory_args = None /\
  arg_SNS_INGEST_TOPIC_NAME DCMore.role_and_memory_args = None /\
  LAMBDA_ROLE_NAME (new_DCDataplaneConfig DCMore.role_and_memory_args)
    = "CustomRole" /\
  LAMBDA_MEMORY_SIZE (new_DCDataplaneConfig DCMore.role_and_memory_args)
    = 8192%Z /\
  LAMBDA_TIMEOUT (new_DCDataplaneConfig DCMore.role_and_memory_args) = 300%Z /\
  SNS_INGEST_TOPIC_NAME (new_DCDataplaneConfig DCMore.role_and_memory_args)
    = "osml-stac-ingest".
Proof.
  destruct (config_is_replaced_wholesale
              (Samples.bare_props Samples.test_account))
    as (_ & _ & _ & _ & _ & _ & Hkept).
  destruct (Hkept DCMore.role_and_memory_args)
    as ([Hrole _] & [Hmemory _] & _ & [_ Htimeout] & Hrest).
  do 14 destruct Hrest as [_ Hrest]. destruct Hrest as [_ Htopic].
  do 4 (split; [reflexivity|]).
  split; [apply Hrole; reflexivity|].
  split; [apply Hmemory; reflexivity|].
  split; [apply Htimeout; reflexivity | apply Htopic; reflexivity].
Defined.

(** *** Independence of the decisions *)

(** Two runs are compared through their closed forms, which are then
    compared by cases on the optional properties they read. *)
Ltac independent p p' :=
  apply (returns_both _ _ _ _ _ (constructor_decides p) (constructor_decides p'));
  unfold decided, count; intros s s' Hs Hs';
  repeat match goal with H : _ /\ _ |- _ => destruct H end;
  repeat match goal with H : _ = _ |- _ => rewrite H; clear H end;
  destruct p as [a0 v0 sc0 ic0 [t0|] [g0|] [r0|] c0];
  cbn; try destruct (truthy_string g0);
  split; reflexivity.

(** C6: what is decided for one optional collaborator does not depend on the
    other two.  Two property records that differ only in lambdaRole and
    securityGroupId give the same ingestTopic handle and declare the same
    topics; likewise for the role against topic and security group, and for
    the security group against topic and role.  Whether a resource is
    created and which handle results does not depend on the optional config
    either. *)
Theorem decisions_are_independent (p : DCDataplaneProps)
    (r : option IRole) (t : option ITopic) (g : option string)
    (c : option DCDataplaneConfig) :
  same_decision This.ingestTopic KTopic p
    (Props.with_lambdaRole r (Props.with_securityGroupId g p)) /\
  same_decision This.lambdaRole KRole p
    (Props.with_ingestTopic t (Props.with_securityGroupId g p)) /\
  same_decision This.securityGroup KImport p
    (Props.with_ingestTopic t (Props.with_lambdaRole r p)) /\
  same_choice This.ingestTopic KTopic p
    (Props.with_config c
       (Props.with_lambdaRole r (Props.with_securityGroupId g p))) /\
  same_choice This.lambdaRole KRole p
    (Props.with_config c
       (Props.with_ingestTopic t (Props.with_securityGroupId g p))) /\
  same_choice This.securityGroup KImport p
    (Props.with_config c
       (Props.with_ingestTopic t (Props.with_lambdaRole r p))).
Proof.
  conjuncts;
    match goal with
    | |- same_decision _ _ ?p ?p' => unfold same_decision
    | |- same_choice _ _ ?p ?p' => unfold same_choice
    end;
    match goal with |- returns (_ ?p) (fun _ => returns (_ ?p') _) =>
      independent p p'
    end.
Qed.

(** *** What the constructor declares *)

(** C7: an OSMLRestApi is declared exactly when account.auth is true.  With
    auth true there is one, DCRestApi, and its integration is the STAC
    function held by the field stacFunction; with auth false or absent there
    is none. *)
Theorem rest_api_iff_auth (props : DCDataplaneProps) :
  returns (new_DCDataplane props) (fun s =>
    (count KRestApi (children s) = 1 <-> auth (Props.account props) = Some true) /\
    (count KRestApi (children s) = 0 <-> auth (Props.account props) <> Some true) /\
    This.stacFunction (this s) = Some (Child "DCStacFunction") /\
    (exists f, tryFindChild "DCStacFunction" (children s)
                 = Some (DockerImageFunction f)) /\
    of_kind KRestApi (children s)
      = if truthy_flag (auth (Props.account props))
        then [("DCRestApi", OSMLRestApi {|
                 RestApi.account := Props.account props;
                 RestApi.name := SERVICE_NAME_ABBREVIATION (config_in_effect props);
                 RestApi.apiStageName := STAC_FASTAPI_ROOT_PATH (config_in_effect props);
                 RestApi.integration := Child "DCStacFunction" |})]
        else []).
Proof.
  paths props; vm_compute; conjuncts;
    try reflexivity; try (eexists; reflexivity);
    try (intros; reflexivity); try (intros; discriminate);
    try (intros H; contradiction H; reflexivity);
    try (intros H1 H2; discriminate H2).
Qed.

(** C8: with no optional property supplied the dataplane declares one role,
    named by the default LAMBDA_ROLE_NAME, one topic named osml-stac-ingest,
    two functions, the STAC function and the ingest function, and one
    OpenSearch domain; both functions are given the same environment, whose
    entry ES_HOST is the endpoint of that domain. *)
Theorem bare_dataplane_declares (props : DCDataplaneProps)
    (Htopic : Props.ingestTopic props = None)
    (Hgroup : Props.securityGroupId props = None)
    (Hrole : Props.lambdaRole props = None)
    (Hconfig : Props.config props = None) :
  returns (new_DCDataplane props) (fun s =>
    of_kind KRole (children s)
      = [("DCLambdaRole",
          DCLambdaRole (Props.account props)
                       (LAMBDA_ROLE_NAME (new_DCDataplaneConfig no_args)))] /\
    of_kind KTopic (children s) = [("DIOutputTopic", Topic "osml-stac-ingest")] /\
    exists stac ingest domain,
      of_kind KFunction (children s)
        = [("DCStacFunction", DockerImageFunction stac);
           ("DCIngestFunction", DockerImageFunction ingest)] /\
      This.stacFunction (this s) = Some (Child "DCStacFunction") /\
      This.ingestFunction (this s) = Some (Child "DCIngestFunction") /\
      of_kind KDomain (children s) = [("DCOSDomain", OSDomain domain)] /\
      Fn.environment stac = Fn.environment ingest /\
      Fn.environment stac = env (new_DCDataplaneConfig no_args) (Child "DCOSDomain") /\
      Env_get "ES_HOST" (Fn.environment stac)
        = Some (domainEndpoint (Child "DCOSDomain"))).
Proof.
  paths props; try discriminate Htopic; try discriminate Hgroup;
    try discriminate Hrole; try discriminate Hconfig; evaluated.
Qed.

Lemma bare_dataplane_declares_witness :
  Props.ingestTopic (Samples.bare_props Samples.test_account) = None /\
  Props.securityGroupId (Samples.bare_props Samples.test_account) = None /\
  Props.lambdaRole (Samples.bare_props Samples.test_account) = None /\
  Props.config (Samples.bare_props Samples.test_account) = None /\
  returns (new_DCDataplane (Samples.bare_props Samples.test_account)) (fun s =>
    count KRole (children s) = 1 /\
    count KTopic (children s) = 1 /\
    count KFunction (children s) = 2 /\
    count KDomain (children s) = 1).
Proof.
  pose proof (bare_dataplane_declares (Samples.bare_props Samples.test_account)
                eq_refl eq_refl eq_refl eq_refl) as H.
  conjuncts; try reflexivity.
  apply (returns_weaken _ _ _ H).
  intros s (Hr & Ht & stac & ingest & d & Hf & _ & _ & Hd & _).
  unfold count. rewrite Hr, Ht, Hf, Hd. conjuncts; reflexivity.
Defined.

(** C9: the field removalPolicy and the removal policy of the OpenSearch
    domain are both RETAIN when account.prodLike is true and both DESTROY
    otherwise; the domain is the only one declared. *)
Theorem removal_policy_follows_prodLike (props : DCDataplaneProps) :
  returns (new_DCDataplane props) (fun s =>
    exists d,
      of_kind KDomain (children s) = [("DCOSDomain", OSDomain d)] /\
      This.removalPolicy (this s)
        = Some (if prodLike (Props.account props) then RETAIN else DESTROY) /\
      Domain.removalPolicy d
        = (if prodLike (Props.account props) then RETAIN else DESTROY)).
Proof.
  paths props; evaluated.
Qed.


(** *** Two runs *)

Example bare_run_has_no_rest_api :
  returns (new_DCDataplane (Samples.bare_props Samples.test_account)) (fun s =>
    map fst (children s)
      = ["DIOutputTopic"; "DCLambdaRole"; "DCOSSecurityGroup"; "DCOSDomain";
         "DCStacFunction"; "DCIngestFunction"] /\
    subscriptions s = [(Child "DIOutputTopic", Child "DCIngestFunction")] /\
    This.removalPolicy (this s) = Some DESTROY /\
    This.dockerImageCode (this s) = None).
Proof.
  vm_compute; conjuncts; reflexivity.
Qed.

Example auth_run_has_a_rest_api :
  returns (new_DCDataplane (Samples.bare_props Samples.auth_account)) (fun s =>
    map fst (children s)
      = ["DIOutputTopic"; "DCLambdaRole"; "DCOSSecurityGroup"; "DCOSDomain";
         "DCStacFunction"; "DCRestApi"; "DCIngestFunction"] /\
    This.removalPolicy (this s) = Some RETAIN).
Proof.
  vm_compute; conjuncts; reflexivity.
Qed.

End DCProofs.

(** ** Properties of the tile server lambda role *)

Module TSProofs.

Import Compose ComposeFacts Cdk Osml TS.

Section Statements.

Variable Fact_find : string -> string -> option string.
Variable config : TSDataplaneConfig.

(** The constructor returns whatever the lookup gives, and attaches the
    four statements with the partition interpolated as it is. *)
Lemma constructor_attaches (props : TSLambdaRoleProps) :
  returns (new_TSLambdaRole Fact_find config props) (fun s =>
    This.partition (this s)
      = Fact_find (region (account props)) FactName_PARTITION /\
    exists r,
      children s = [("TSLambdaRole", r)] /\
      role_of s = Some r /\
      Role.roleName r = roleName props /\
      Role.policy r
        = enumerated config (interpolate (This.partition (this s))) (account props)).
Proof.
  destruct props as [[aid areg prod au] name].
  unfold new_TSLambdaRole, constructor; cbn.
  split; [reflexivity|].
  eexists; repeat split; reflexivity.
Qed.

(** C4: when the partition of the account region resolves, the role has
    exactly the four enumerated statements, in order, with the ARNs built from
    the resolved partition, the region and id of the account and the default
    job table name; it is the only child, named by the given role name. *)
Theorem statements_match_enumeration (props : TSLambdaRoleProps)
    (partition : string)
    (Hfound : Fact_find (region (account props)) FactName_PARTITION
              = Some partition) :
  returns (new_TSLambdaRole Fact_find config props) (fun s =>
    This.partition (this s) = Some partition /\
    exists r,
      children s = [("TSLambdaRole", r)] /\
      role_of s = Some r /\
      Role.roleName r = roleName props /\
      Role.policy r = enumerated config partition (account props) /\
      length (Role.policy r) = 4).
Proof.
  apply (returns_weaken _ _ _ (constructor_attaches props)).
  intros s (Hp & r & Hc & Hr & Hn & Hs).
  rewrite Hfound in Hp. rewrite Hp in Hs. simpl in Hs.
  split; [exact Hp|].
  exists r. rewrite Hs. repeat split; assumption.
Qed.

End Statements.

Lemma statements_match_enumeration_witness :
  Samples.facts (region (account Samples.ts_role_props)) FactName_PARTITION
    = Some "aws" /\
  returns (new_TSLambdaRole Samples.facts Samples.ts_config Samples.ts_role_props)
    (fun s =>
       exists r,
         role_of s = Some r /\
         map resources (Role.policy r)
           = [ [Str "arn:aws:dynamodb:us-east-1:123456789012:table/TSJobTable"];
               [Str "arn:aws:lambda:us-east-1:123456789012:function:*"];
               [Str "*"];
               [Str "arn:aws:logs:us-east-1:123456789012:*"] ]).
Proof.
  split; [reflexivity|].
  apply (returns_weaken _ _ _
           (statements_match_enumeration Samples.facts Samples.ts_config
              Samples.ts_role_props "aws" eq_refl)).
  intros s (_ & r & _ & Hr & _ & Hs & _).
  exists r. split; [exact Hr|]. rewrite Hs. reflexivity.
Defined.

(** C3, on the code: at a region whose partition the fact database does not
    know, the constructor does not throw.  It returns a role whose field
    partition is undefined and whose ARNs carry the text undefined where the
    partition belongs. *)
Theorem unknown_region_is_not_refused (config : TSDataplaneConfig) :
  Samples.facts (region (account Samples.unknown_region_props)) FactName_PARTITION
    = None /\
  returns (new_TSLambdaRole Samples.facts config Samples.unknown_region_props)
    (fun s =>
       This.partition (this s) = None /\
       exists r,
         role_of s = Some r /\
         map resources (Role.policy r)
           = [ [Str ("arn:undefined:dynamodb:mars-central-1:123456789012:table/"
                     ++ DDB_JOB_TABLE config)];
               [Str "arn:undefined:lambda:mars-central-1:123456789012:function:*"];
               [Str "*"];
               [Str "arn:undefined:logs:mars-central-1:123456789012:*"] ]).
Proof.
  split; [reflexivity|].
  apply (returns_weaken _ _ _
           (constructor_attaches Samples.facts config Samples.unknown_region_props)).
  intros s (Hp & r & _ & Hr & _ & Hs).
  split; [exact Hp|].
  exists r. split; [exact Hr|].
  rewrite Hs, Hp. reflexivity.
Qed.

End TSProofs.

(** ** Further properties of the data catalog dataplane *)

Module DCExtra.

Import Compose ComposeFacts Cdk Osml DC DCMore DCProofs.

Ltac settled :=
  vm_compute;
  repeat match goal with
         | |- _ /\ _ => split
         | |- exists _, _ => eexists
         end;
  first [reflexivity | exact I].

(** X1: both functions are given the role held by the field lambdaRole, which
    is the supplied role when one is supplied and the role of the new
    DCLambdaRole otherwise. *)
Theorem both_functions_assume_the_resolved_role (p : DCDataplaneProps) :
  returns (new_DCDataplane p) (fun s =>
    exists stac ingest,
      function_at "DCStacFunction" s = Some stac /\
      function_at "DCIngestFunction" s = Some ingest /\
      Fn.role stac = This.lambdaRole (this s) /\
      Fn.role ingest = This.lambdaRole (this s) /\
      This.lambdaRole (this s)
        = Some match Props.lambdaRole p with
               | Some r => r
               | None => Member (Child "DCLambdaRole") "role"
               end).
Proof.
  paths p; settled.
Qed.

(** X3: the image stacCode goes to the function DCStacLambda and the image
    ingestCode to the function DCIngestLambda; the public field
    dockerImageCode is never assigned and is undefined on every dataplane. *)
Theorem images_go_to_their_functions (p : DCDataplaneProps) :
  returns (new_DCDataplane p) (fun s =>
    exists stac ingest,
      function_at "DCStacFunction" s = Some stac /\
      function_at "DCIngestFunction" s = Some ingest /\
      Fn.functionName stac = "DCStacLambda" /\
      Fn.code stac = Props.stacCode p /\
      Fn.functionName ingest = "DCIngestLambda" /\
      Fn.code ingest = Props.ingestCode p /\
      This.dockerImageCode (this s) = None).
Proof.
  paths p; settled.
Qed.

(** X4: exactly one subscription is added: the ingest function on the topic
    held by the field ingestTopic, be it supplied or created.  The STAC
    function is subscribed to nothing. *)
Theorem ingest_function_is_the_only_subscriber (p : DCDataplaneProps) :
  returns (new_DCDataplane p) (fun s =>
    exists topic,
      This.ingestTopic (this s) = Some topic /\
      topic = match Props.ingestTopic p with
              | Some t => t
              | None => Child "DIOutputTopic"
              end /\
      This.ingestFunction (this s) = Some (Child "DCIngestFunction") /\
      subscriptions s = [(topic, Child "DCIngestFunction")]).
Proof.
  paths p; settled.
Qed.

(** X5: the domain admits connections from the STAC function and from the
    ingest function, on TCP port 443 whatever ES_PORT is, and from nothing
    else; its only security group is DCOSSecurityGroup, created in the given
    network. *)
Theorem domain_admits_the_two_functions_on_443 (p : DCDataplaneProps) :
  returns (new_DCDataplane p) (fun s =>
    exists d,
      domain_at "DCOSDomain" s = Some d /\
      Domain.allowedFrom d
        = [(Child "DCStacFunction", tcp 443); (Child "DCIngestFunction", tcp 443)] /\
      This.stacFunction (this s) = Some (Child "DCStacFunction") /\
      This.ingestFunction (this s) = Some (Child "DCIngestFunction") /\
      Domain.securityGroups d = [Child "DCOSSecurityGroup"] /\
      tryFindChild "DCOSSecurityGroup" (children s)
        = Some (SecurityGroup (vpc (Props.osmlVpc p))) /\
      of_kind KSecurityGroup (children s)
        = [("DCOSSecurityGroup", SecurityGroup (vpc (Props.osmlVpc p)))]).
Proof.
  paths p; settled.
Qed.

(** X7: the security group id reaches nothing but the field securityGroup:
    replacing it by any other id, or by none, leaves every other field, every
    subscription and every child but the imported group as they were.  The
    imported group is attached neither to the domain nor to a function. *)
Theorem security_group_id_reaches_nothing (p : DCDataplaneProps)
    (g : option string) :
  returns (new_DCDataplane p) (fun s =>
    returns (new_DCDataplane (Props.with_securityGroupId g p)) (fun s' =>
      without_imports (children s') = without_imports (children s) /\
      subscriptions s' = subscriptions s /\
      This.config (this s') = This.config (this s) /\
      This.removalPolicy (this s') = This.removalPolicy (this s) /\
      This.lambdaRole (this s') = This.lambdaRole (this s) /\
      This.ingestTopic (this s') = This.ingestTopic (this s) /\
      This.stacFunction (this s') = This.stacFunction (this s) /\
      This.ingestFunction (this s') = This.ingestFunction (this s))).
Proof.
  paths p; destruct g as [[|ch1 g1]|]; settled.
Qed.

(** X8: the fields OS_EBS_SIZE and STAC_FASTAPI_BACKEND of a supplied config
    are read nowhere: two configs that differ in them only give the same
    children and the same subscriptions. *)
Theorem ebs_size_and_backend_are_unused (p : DCDataplaneProps)
    (c : DCDataplaneConfig) (ebs : Z) (backend : string) :
  returns (new_DCDataplane (Props.with_config (Some c) p)) (fun s =>
    returns (new_DCDataplane
               (Props.with_config (Some (with_ebs_and_backend ebs backend c)) p))
      (fun s' =>
         children s' = children s /\
         subscriptions s' = subscriptions s /\
         This.config (this s') = Some (with_ebs_and_backend ebs backend c))).
Proof.
  paths p; destruct c; settled.
Qed.


(** X10: the rest of the constructor keeps what setup decided: the fields
    config, removalPolicy, lambdaRole, ingestTopic and securityGroup are the
    ones setup assigned, and the children setup declared come first, as they
    were. *)
Theorem constructor_keeps_setup (p : DCDataplaneProps) :
  returns (run (setup p)) (fun s0 =>
    returns (new_DCDataplane p) (fun s =>
      This.config (this s) = This.config (this s0) /\
      This.removalPolicy (this s) = This.removalPolicy (this s0) /\
      This.lambdaRole (this s) = This.lambdaRole (this s0) /\
      This.ingestTopic (this s) = This.ingestTopic (this s0) /\
      This.securityGroup (this s) = This.securityGroup (this s0) /\
      firstn (length (children s0)) (children s) = children s0 /\
      This.stacFunction (this s0) = None /\
      This.ingestFunction (this s0) = None)).
Proof.
  paths p; settled.
Qed.

(** X11: with account.auth true, the stage name of the REST API is the root
    path of the config in effect, and the functions are told the same path
    with a leading slash in STAC_FASTAPI_ROOT_PATH; the API is named by
    SERVICE_NAME_ABBREVIATION. *)
Theorem root_path_agrees_with_stage (p : DCDataplaneProps)
    (Hauth : auth (Props.account p) = Some true) :
  returns (new_DCDataplane p) (fun s =>
    exists api stac ingest,
      tryFindChild "DCRestApi" (children s) = Some (OSMLRestApi api) /\
      function_at "DCStacFunction" s = Some stac /\
      function_at "DCIngestFunction" s = Some ingest /\
      RestApi.apiStageName api = STAC_FASTAPI_ROOT_PATH (config_in_effect p) /\
      RestApi.name api = SERVICE_NAME_ABBREVIATION (config_in_effect p) /\
      Env_get "STAC_FASTAPI_ROOT_PATH" (Fn.environment stac)
        = Some (Str ("/" ++ RestApi.apiStageName api)) /\
      Env_get "STAC_FASTAPI_ROOT_PATH" (Fn.environment ingest)
        = Some (Str ("/" ++ RestApi.apiStageName api))).
Proof.
  paths p; try discriminate Hauth; settled.
Qed.

Lemma root_path_agrees_with_stage_witness :
  auth (Props.account (Samples.bare_props Samples.auth_account)) = Some true /\
  returns (new_DCDataplane (Samples.bare_props Samples.auth_account)) (fun s =>
    exists api stac,
      tryFindChild "DCRestApi" (children s) = Some (OSMLRestApi api) /\
      function_at "DCStacFunction" s = Some stac /\
      RestApi.apiStageName api = "data-catalog" /\
      Env_get "STAC_FASTAPI_ROOT_PATH" (Fn.environment stac)
        = Some (Str "/data-catalog")).
Proof.
  split; [reflexivity|].
  apply (returns_weaken _ _ _
           (root_path_agrees_with_stage
              (Samples.bare_props Samples.auth_account) eq_refl)).
  intros s (api & stac & ingest & Ha & Hs & _ & Hn & _ & He & _).
  exists api, stac. rewrite Hn in He. conjuncts; assumption.
Defined.

End DCExtra.

(** ** Further properties of the tile server lambda role *)

Module TSExtra.

Import Compose ComposeFacts Cdk Osml TS TSMore TSProofs.

(** X12: whenever the lookup of the partition gives nothing, the constructor
    still returns: the field partition is undefined and the three ARNs of the
    role carry the text undefined in the place of the partition, followed by
    the service, the region and the id of the account. *)
Theorem unresolved_partition_is_interpolated
    (Fact_find : string -> string -> option string)
    (config : TSDataplaneConfig) (props : TSLambdaRoleProps)
    (Hmissing : Fact_find (region (account props)) FactName_PARTITION = None) :
  returns (new_TSLambdaRole Fact_find config props) (fun s =>
    This.partition (this s) = None /\
    exists r,
      role_of s = Some r /\
      map resources (Role.policy r)
        = [ [Str ("arn:undefined:dynamodb:" ++ region (account props) ++ ":"
                  ++ id (account props) ++ ":table/" ++ DDB_JOB_TABLE config)];
            [Str ("arn:undefined:lambda:" ++ region (account props) ++ ":"
                  ++ id (account props) ++ ":function:*")];
            [Str "*"];
            [Str ("arn:undefined:logs:" ++ region (account props) ++ ":"
                  ++ id (account props) ++ ":*")] ]).
Proof.
  apply (returns_weaken _ _ _ (constructor_attaches Fact_find config props)).
  intros s (Hp & r & _ & Hr & _ & Hs).
  rewrite Hmissing in Hp.
  split; [exact Hp|].
  exists r. split; [exact Hr|].
  rewrite Hs, Hp. reflexivity.
Qed.

Lemma unresolved_partition_is_interpolated_witness :
  Samples.facts (region (account Samples.unknown_region_props)) FactName_PARTITION
    = None /\
  returns (new_TSLambdaRole Samples.facts Samples.ts_config
             Samples.unknown_region_props)
    (fun s => This.partition (this s) = None).
Proof.
  split; [reflexivity|].
  apply (returns_weaken _ _ _
           (unresolved_partition_is_interpolated Samples.facts Samples.ts_config
              Samples.unknown_region_props eq_refl)).
  intros s [Hp _]. exact Hp.
Defined.

(** X13: whatever the lookup gives, the role can be assumed by the Lambda
    service only, every statement allows and names no principal, and the
    statement on every resource carries nothing but the six network
    actions: the DynamoDB, Lambda and logs actions are never granted on
    the resource star. *)
Theorem star_is_granted_for_network_actions_only
    (Fact_find : string -> string -> option string)
    (config : TSDataplaneConfig) (props : TSLambdaRoleProps) :
  returns (new_TSLambdaRole Fact_find config props) (fun s =>
    exists r,
      role_of s = Some r /\
      Role.assumedBy r
        = CompositePrincipal [ServicePrincipal "lambda.amazonaws.com"] /\
      Forall (fun st => effect st = ALLOW /\ principals st = []) (Role.policy r) /\
      (forall st, In st (Role.policy r) ->
         In (Str "*") (resources st) -> actions st = network_actions)).
Proof.
  destruct props as [[aid areg prod au] name].
  unfold new_TSLambdaRole, constructor; cbn.
  eexists. split; [reflexivity|]. split; [reflexivity|]. split.
  - repeat constructor.
  - intros st [<-|[<-|[<-|[<-|[]]]]] [Hstar|[]];
      solve [reflexivity | discriminate Hstar].
Qed.

End TSExtra.

(** ** Properties of the SageMaker endpoint construct *)

Module SMExtra.

Import Cdk Osml SM.

Lemma append_empty (a : string) : a ++ "" = a.
Proof.
  induction a as [|c a IH]; simpl; [reflexivity | now rewrite IH].
Qed.

Lemma eqb_append (a b c : string) : (a ++ b =? a ++ c) = (b =? c).
Proof.
  induction a as [|x a IH]; simpl; [reflexivity|].
  now rewrite Ascii.eqb_refl.
Qed.


Lemma eqb_append_right (a b : string) : (a =? a ++ b) = ("" =? b).
Proof.
  rewrite <- (append_empty a) at 1. apply eqb_append.
Qed.

Lemma sanitizeId_append (a b : string) :
  sanitizeId (a ++ b) = sanitizeId a ++ sanitizeId b.
Proof.
  induction a as [|c a IH]; simpl; [reflexivity|].
  destruct (Ascii.eqb c "/"); simpl; now rewrite IH.
Qed.

Lemma sanitizeId_empty (id : string) :
  (sanitizeId id =? "") = (id =? "").
Proof.
  destruct id as [|c id]; simpl; [reflexivity|].
  destruct (Ascii.eqb c "/"); reflexivity.
Qed.

Lemma nonempty_append (a b : string) :
  (a =? "") = false -> (a ++ b =? "") = false.
Proof.
  destruct a; simpl; [discriminate | reflexivity].
Qed.

Section Endpoint.

Context {number : Type}.
Variable selectSubnets : IVpc -> SubnetType -> SelectedSubnets.

(** The three resources in closed form. *)
Definition the_model (props : Props.t number) : Model.t := {|
  Model.executionRoleArn := Props.roleArn props;
  Model.containers :=
    [ {| image := Some (Props.modelContainer props);
         environment := Some [("MODEL_SELECTION", Props.modelName props)];
         imageConfig_repositoryAccessMode := None |} ];
  Model.vpcConfig_subnets :=
    subnetIds (selectSubnets (Props.vpc props) PRIVATE_WITH_EGRESS);
  Model.vpcConfig_securityGroupIds :=
    [Attr (Props.vpcSecurityGroup props) "securityGroupId"];
  Model.primaryContainer :=
    Some {| image := None; environment := None;
            imageConfig_repositoryAccessMode := Some "Vpc" |}
|}.

Lemma endpoint_in_closed_form (id : string) (props : Props.t number) :
  id <> "" ->
  new_OSMLSMEndpoint selectSubnets id props
  = inr {|
      model := Child (sanitizeId id);
      endpointConfig := Child (sanitizeId id ++ "-EndpointConfig");
      endpoint := Child (sanitizeId id ++ "-Endpoint");
      children :=
        [ (sanitizeId id, CfnModel (the_model props));
          (sanitizeId id ++ "-EndpointConfig",
           CfnEndpointConfig {|
             productionVariants :=
               [ {| Variant.initialInstanceCount := Props.initialInstanceCount props;
                    Variant.initialVariantWeight := Props.initialVariantWeight props;
                    Variant.instanceType := Props.instanceType props;
                    Variant.modelName := Attr (Child (sanitizeId id)) "attrModelName";
                    Variant.variantName := Props.variantName props |} ] |});
          (sanitizeId id ++ "-Endpoint",
           CfnEndpoint {|
             endpointConfigName :=
               Attr (Child (sanitizeId id ++ "-EndpointConfig"))
                    "attrEndpointConfigName";
             endpointName := Props.modelName props |}) ] |}.
Proof.
  intros Hid.
  assert (Hne : (sanitizeId id =? "") = false).
  { rewrite sanitizeId_empty. now apply String.eqb_neq. }
  unfold new_OSMLSMEndpoint, addChild.
  rewrite !sanitizeId_append, Hne, !(nonempty_append _ _ Hne).
  cbn [tryFindChild app sanitizeId Ascii.eqb Bool.eqb].
  rewrite eqb_append_right; simpl.
  rewrite eqb_append_right, eqb_append; simpl.
  reflexivity.
Qed.

(** X15: in an endpoint construct the three fields stand for the three
    children: the endpoint is configured by the endpoint config of this
    construct, whose one production variant serves the model of this
    construct; the endpoint is named by modelName, which is also what the
    container of the model is told in MODEL_SELECTION. *)
Theorem endpoint_is_wired_to_its_model (id : string) (props : Props.t number)
    (Hid : id <> "") :
  exists o m c e,
    new_OSMLSMEndpoint selectSubnets id props = inr o /\
    deref o (model o) = Some (CfnModel m) /\
    deref o (endpointConfig o) = Some (CfnEndpointConfig c) /\
    deref o (endpoint o) = Some (CfnEndpoint e) /\
    endpointConfigName e = Attr (endpointConfig o) "attrEndpointConfigName" /\
    map (fun v => Variant.modelName v) (productionVariants c)
      = [Attr (model o) "attrModelName"] /\
    endpointName e = Props.modelName props /\
    map environment (Model.containers m)
      = [Some [("MODEL_SELECTION", Props.modelName props)]].
Proof.
  do 4 eexists. split; [apply (endpoint_in_closed_form id props Hid)|].
  unfold deref; simpl.
  rewrite !String.eqb_refl, !eqb_append_right, !eqb_append; simpl.
  repeat split; reflexivity.
Qed.

End Endpoint.

(** X16: of the network the construct reads the private subnets with egress
    and nothing else: two networks that select the same such subnets for the
    given vpc give the same construct, whatever their other subnets are. *)
Theorem only_private_subnets_with_egress_are_read {number : Type}
    (select select' : IVpc -> SubnetType -> SelectedSubnets)
    (id : string) (props : Props.t number)
    (Hsame : select (Props.vpc props) PRIVATE_WITH_EGRESS
             = select' (Props.vpc props) PRIVATE_WITH_EGRESS) :
  new_OSMLSMEndpoint select id props = new_OSMLSMEndpoint select' id props.
Proof.
  unfold new_OSMLSMEndpoint. rewrite Hsame. reflexivity.
Qed.


Lemma endpoint_is_wired_to_its_model_witness :
  "CenterPointModel" <> "" /\
  exists o e,
    new_OSMLSMEndpoint SMSamples.selectSubnets "CenterPointModel"
      SMSamples.endpoint_props = inr o /\
    deref o (endpoint o) = Some (CfnEndpoint e) /\
    endpointName e = "centerpoint" /\
    endpointConfigName e
      = Attr (Child "CenterPointModel-EndpointConfig") "attrEndpointConfigName".
Proof.
  assert (Hid : "CenterPointModel" <> "") by discriminate.
  split; [exact Hid|].
  destruct (endpoint_is_wired_to_its_model SMSamples.selectSubnets
              "CenterPointModel" SMSamples.endpoint_props Hid)
    as (o & m & c & e & Ho & _ & _ & He & Hc & _ & Hn & _).
  exists o, e. split; [exact Ho|]. split; [exact He|]. split; [exact Hn|].
  rewrite Hc. vm_compute in Ho. injection Ho as <-. reflexivity.
Defined.

Lemma only_private_subnets_with_egress_are_read_witness :
  SMSamples.selectSubnets (Props.vpc SMSamples.endpoint_props) PRIVATE_WITH_EGRESS
    = SMSamples.selectSubnets_private_only (Props.vpc SMSamples.endpoint_props)
        PRIVATE_WITH_EGRESS /\
  SMSamples.selectSubnets (Props.vpc SMSamples.endpoint_props) PUBLIC
    <> SMSamples.selectSubnets_private_only (Props.vpc SMSamples.endpoint_props)
         PUBLIC /\
  new_OSMLSMEndpoint SMSamples.selectSubnets "CenterPointModel"
    SMSamples.endpoint_props
  = new_OSMLSMEndpoint SMSamples.selectSubnets_private_only "CenterPointModel"
      SMSamples.endpoint_props.
Proof.
  split; [reflexivity|]. split; [discriminate|].
  apply (only_private_subnets_with_egress_are_read
           SMSamples.selectSubnets SMSamples.selectSubnets_private_only
           "CenterPointModel" SMSamples.endpoint_props eq_refl).
Defined.

End SMExtra.
